(** * TheMuse-API-ETL: the transformation and upload steps of [py_run.py]

    A shallow embedding of [transform_data] and [upload_to_s3] together with
    the Python and pandas operations they call, followed by the properties
    of the natural-language specification that concern them; then the rest
    of the script, [read_api], [save_to_csv] and [main], as procedures over
    a trace of observable actions, with the properties of whole runs.

    Conventions.
    - A value decoded by [response.json()] is a [pyval]; JSON objects are
      finite maps from strings ([gmap string pyval]).
    - A Python [str] is a Rocq [string]; one [ascii] stands for one
      character of the Python string.
    - An expression that can raise is a [result]; statements are sequenced
      with the bind of [result], so the first exception wins, as in Python.
    - [print(..., file=sys.stderr)] and [subprocess.run] act on an explicit
      [world] that is threaded through the two procedures. *)

From Stdlib Require Import ZArith String Ascii.
From stdpp Require Import gmap strings list.

Set Warnings "-register-all".
Set Default Proof Using "Type".

(** ** Python values and exceptions *)

(** The values [json.loads] can produce.  A [float] is kept as its IEEE-754
    binary64 bit pattern: the program never computes with one, it only
    tests truthiness. *)
Inductive pyval : Type :=
  | PNone
  | PBool (b : bool)
  | PInt (n : Z)
  | PFloat (bits : Z)
  | PStr (s : string)
  | PList (xs : list pyval)
  | PDict (m : gmap string pyval).

(** The exception classes that the modelled code can raise. *)
Inductive exn : Type :=
  | TypeError
  | AttributeError
  | KeyError
  | IndexError
  | ValueError
  | OSError.

Inductive result (A : Type) : Type :=
  | Ok (a : A)
  | Raise (e : exn).
Arguments Ok {A} a.
Arguments Raise {A} e.

#[global] Instance result_ret : MRet result := λ A a, Ok a.
#[global] Instance result_bind : MBind result := λ A B f r,
  match r with
  | Ok a => f a
  | Raise e => Raise e
  end.

Definition is_ok {A} (r : result A) : bool :=
  match r with Ok _ => true | Raise _ => false end.

Definition raises {A} (r : result A) : Prop := ∃ e, r = Raise e.

(** ** String operations *)

Definition comma : ascii := ","%char.

(** [s[:n]] on a [str]: the longest prefix of at most [n] characters. *)
Definition str_slice_to (n : nat) (s : string) : string := substring 0 n s.

(** [sub in s] on strings. *)
Fixpoint str_contains (sub s : string) : bool :=
  String.prefix sub s ||
  match s with
  | EmptyString => false
  | String _ s' => str_contains sub s'
  end.

(** [s.split(sep)] for a separator of one character: every occurrence of
    the separator cuts, and empty pieces are kept. *)
Fixpoint str_split (sep : ascii) (s : string) : list string :=
  match s with
  | EmptyString => [EmptyString]
  | String c s' =>
      if Ascii.eqb c sep then EmptyString :: str_split sep s'
      else match str_split sep s' with
           | [] => [String c EmptyString]
           | p :: ps => String c p :: ps
           end
  end.

(** Number of occurrences of a character. *)
Fixpoint str_count (c : ascii) (s : string) : nat :=
  match s with
  | EmptyString => 0
  | String d s' => (if Ascii.eqb d c then 1 else 0) + str_count c s'
  end.

Fixpoint chars (s : string) : list string :=
  match s with
  | EmptyString => []
  | String c s' => String c EmptyString :: chars s'
  end.

(** ** Python operations on values *)

Module Py.

(** [bool(v)]. *)
Definition truthy (v : pyval) : bool :=
  match v with
  | PNone => false
  | PBool b => b
  | PInt n => negb (n =? 0)%Z
  | PFloat bits => negb (Z.land bits (2 ^ 63 - 1) =? 0)%Z
  | PStr s => negb (String.eqb s "")
  | PList xs => negb (bool_decide (xs = []))
  | PDict m => negb (bool_decide (m = ∅))
  end.

(** [v.get(k)]: only a [dict] has the method. *)
Definition get (v : pyval) (k : string) : result pyval :=
  match v with
  | PDict m => Ok (default PNone (m !! k))
  | _ => Raise AttributeError
  end.

(** [v[k]] with a string key. *)
Definition getitem (v : pyval) (k : string) : result pyval :=
  match v with
  | PDict m =>
      match m !! k with
      | Some x => Ok x
      | None => Raise KeyError
      end
  | _ => Raise TypeError
  end.

(** [v[i]] with a non-negative integer index.  The keys of a decoded
    JSON object are strings, so an integer is never a key. *)
Definition getindex (v : pyval) (i : nat) : result pyval :=
  match v with
  | PList xs =>
      match xs !! i with
      | Some x => Ok x
      | None => Raise IndexError
      end
  | PStr s =>
      match String.get i s with
      | Some c => Ok (PStr (String c EmptyString))
      | None => Raise IndexError
      end
  | PDict _ => Raise KeyError
  | _ => Raise TypeError
  end.

(** [v[:n]]. A [dict] rejects the slice as a key ([TypeError] up to
    Python 3.11, [KeyError] from 3.12 on; the model takes the former). *)
Definition slice_to (v : pyval) (n : nat) : result pyval :=
  match v with
  | PStr s => Ok (PStr (str_slice_to n s))
  | PList xs => Ok (PList (take n xs))
  | _ => Raise TypeError
  end.

(** [needle in v] for a string [needle]. *)
Definition contains (needle : string) (v : pyval) : result bool :=
  match v with
  | PStr s => Ok (str_contains needle s)
  | PList xs =>
      Ok (existsb (λ x, match x with
                        | PStr t => String.eqb needle t
                        | _ => false
                        end) xs)
  | PDict m => Ok (bool_decide (is_Some (m !! needle)))
  | _ => Raise TypeError
  end.

(** [v.split(sep)]: only a [str] has the method. *)
Definition split (v : pyval) (sep : ascii) : result (list pyval) :=
  match v with
  | PStr s => Ok (PStr <$> str_split sep s)
  | _ => Raise AttributeError
  end.

(** [a, b = xs]. *)
Definition unpack2 (xs : list pyval) : result (pyval * pyval) :=
  match xs with
  | [a; b] => Ok (a, b)
  | _ => Raise ValueError
  end.

(** The elements a [for] loop visits.  The keys of a [dict] come in
    insertion order in Python; the map forgets that order, which the
    loop of [transform_data] cannot observe (see [iter_dict_fails]). *)
Definition iter (v : pyval) : result (list pyval) :=
  match v with
  | PList xs => Ok xs
  | PStr s => Ok (PStr <$> chars s)
  | PDict m => Ok (PStr <$> (map_to_list m).*1)
  | _ => Raise TypeError
  end.

End Py.

(** ** The pandas operations used by the program *)

Module pd.

(** A frame is its column labels and, per row, one cell per column.
    With [ignore_index=True] the row labels are the positions, so they
    are not stored.  Cells keep the Python object they were given (the
    [object] dtype); numeric dtype inference is outside the model. *)
Record DataFrame : Type := mkDataFrame {
  columns : list string;
  values : list (list pyval)
}.

(** [float('nan')], the filler of a cell that has no value. *)
Definition nan : pyval := PFloat 0x7FF8000000000000.

Fixpoint assoc (k : string) (d : list (string * pyval)) : option pyval :=
  match d with
  | [] => None
  | (k', v) :: d' => if String.eqb k k' then Some v else assoc k d'
  end.

(** Labels of [a] followed by the labels of [b] not yet present. *)
Definition union_labels (a b : list string) : list string :=
  a ++ filter (λ c, c ∉ a) b.

(** [pd.DataFrame(columns=cols)]. *)
Definition empty (cols : list string) : DataFrame :=
  {| columns := cols; values := [] |}.

(** [pd.DataFrame(records)] for a list of dict literals, each given as
    its items in order. *)
Definition from_records (records : list (list (string * pyval))) : DataFrame :=
  let cols := foldl union_labels [] (map fst <$> records) in
  {| columns := cols;
     values := (λ d, (λ c, default nan (assoc c d)) <$> cols) <$> records |}.

(** The rows of [df] laid out along the labels [cols]. *)
Definition reindex (cols : list string) (df : DataFrame) : list (list pyval) :=
  (λ row, (λ c, default nan (assoc c (zip (columns df) row))) <$> cols)
    <$> values df.

(** [pd.concat(dfs, ignore_index=True)]. *)
Definition concat (dfs : list DataFrame) : DataFrame :=
  let cols := foldl union_labels [] (columns <$> dfs) in
  {| columns := cols; values := mjoin (reindex cols <$> dfs) |}.

(** [df.iloc[i][col]]. *)
Definition cell (df : DataFrame) (i : nat) (col : string) : option pyval :=
  row ← values df !! i; assoc col (zip (columns df) row).

End pd.

(** ** The world the procedures act on *)

(** How the operating system answers a request to run a command: the
    process ran and exited with a status, or it could not be started. *)
Inductive exec_outcome : Type :=
  | Exited (returncode : Z)
  | NotStarted.

Record world : Type := mkWorld {
  stderr : list (string * exn);          (* diagnostics printed so far *)
  spawned : list (list string);          (* commands run so far *)
  os_exec : list string → exec_outcome   (* the environment's answer *)
}.

Definition print_stderr (msg : string) (e : exn) (w : world) : world :=
  {| stderr := stderr w ++ [(msg, e)];
     spawned := spawned w;
     os_exec := os_exec w |}.

(** [subprocess.run(argv)] with the default [check=False]: the return
    code is handed back inside the [CompletedProcess], never raised. *)
Definition subprocess_run (argv : list string) (w : world) : result Z * world :=
  match os_exec w argv with
  | Exited rc =>
      (Ok rc, {| stderr := stderr w;
                 spawned := spawned w ++ [argv];
                 os_exec := os_exec w |})
  | NotStarted => (Raise OSError, w)
  end.

(** ** [transform_data] *)

Definition COLUMNS : list string :=
  ["publication_date"; "job_type"; "job"; "company"; "city"; "country"].

Definition NA : pyval := PStr "N/A".

(** Line 72: [job['company'].get('name') if job.get('company') else 'N/A']. *)
Definition company_expr (job : pyval) : result pyval :=
  c ← Py.get job "company";
  if Py.truthy c then co ← Py.getitem job "company"; Py.get co "name"
  else Ok NA.

(** Line 73: [job['locations'][0].get('name') if job.get('locations') else 'N/A']. *)
Definition location_expr (job : pyval) : result pyval :=
  c ← Py.get job "locations";
  if Py.truthy c then
    ls ← Py.getitem job "locations";
    l0 ← Py.getindex ls 0;
    Py.get l0 "name"
  else Ok NA.

(** Line 74: [job_location.split(',') if ',' in job_location else ('N/A', 'N/A')],
    unpacked into two targets. *)
Definition city_country (job_location : pyval) : result (pyval * pyval) :=
  b ← Py.contains "," job_location;
  parts ← (if b : bool then Py.split job_location comma else Ok [NA; NA]);
  Py.unpack2 parts.

(** Lines 69-80: the body of the loop up to the dict literal of the row. *)
Definition extract_row (job : pyval) : result (list (string * pyval)) :=
  d ← Py.get job "publication_date";
  publication_date ← Py.slice_to d 10;
  job_type ← Py.get job "type";
  job_name ← Py.get job "name";
  company_name ← company_expr job;
  job_location ← location_expr job;
  '(job_city, job_country) ← city_country job_location;
  Ok [("publication_date", publication_date);
      ("job_type", job_type);
      ("job", job_name);
      ("company", company_name);
      ("city", job_city);
      ("country", job_country)].

(** Lines 68-81: the loop, with [df] as the accumulator. *)
Fixpoint for_jobs (jobs : list pyval) (df : pd.DataFrame) : result pd.DataFrame :=
  match jobs with
  | [] => Ok df
  | job :: rest =>
      row ← extract_row job;
      for_jobs rest (pd.concat [df; pd.from_records [row]])
  end.

(** Lines 60-83: the body of the [try]. *)
Definition transform_body (data : pyval) : result pd.DataFrame :=
  let df := pd.empty COLUMNS in
  results ← Py.getitem data "results";
  jobs ← Py.iter results;
  for_jobs jobs df.

Definition transform_data (data : pyval) (w : world) : result pd.DataFrame * world :=
  match transform_body data with
  | Ok df => (Ok df, w)
  | Raise err =>
      (Raise err, print_stderr "[ERROR: ] occured building the DataFrame: " err w)
  end.

(** ** [upload_to_s3] *)

Definition S3_DESTINATION : string := "s3://py-project-jobs-s3bucket/input/jobs.csv".

Definition upload_argv (file_name : string) : list string :=
  ["aws"; "s3"; "cp"; file_name; S3_DESTINATION].

Definition upload_to_s3 (file_name bucket folder : string) (w : world)
  : result pyval * world :=
  match subprocess_run (upload_argv file_name) w with
  | (Ok _, w') => (Ok PNone, w')
  | (Raise err, w') =>
      (Raise err, print_stderr "[ERROR: ] uploading file to S3: " err w')
  end.

(** ** Reading a row *)

Definition field (row : list (string * pyval)) (k : string) : option pyval :=
  pd.assoc k row.

Definition is_str (v : pyval) : bool :=
  match v with PStr _ => true | _ => false end.

(** Building JSON objects for examples. *)
Definition obj (items : list (string * pyval)) : pyval :=
  PDict (list_to_map items).

Definition quiet_world : world :=
  {| stderr := []; spawned := []; os_exec := λ _, Exited 0 |}.


(** ** Sample records *)

Definition fields_new_york : gmap string pyval :=
  list_to_map
    [("publication_date", PStr "2023-05-01T12:00:00Z");
     ("type", PStr "external");
     ("name", PStr "Data Engineer");
     ("company", obj [("name", PStr "Acme")]);
     ("locations", PList [obj [("name", PStr "New York, NY, USA")]])].

Definition fields_austin : gmap string pyval :=
  list_to_map
    [("publication_date", PStr "2023-05-01T12:00:00Z");
     ("type", PStr "external");
     ("name", PStr "Data Engineer");
     ("company", obj [("name", PStr "Acme")]);
     ("locations", PList [obj [("name", PStr "Austin,USA")]])].

Definition fields_remote : gmap string pyval :=
  list_to_map
    [("publication_date", PStr "2023-05");
     ("company", obj [("id", PInt 42)]);
     ("locations", PList [obj [("name", PStr "Remote")]])].

Definition fields_empty_company : gmap string pyval :=
  list_to_map
    [("publication_date", PStr "2023-05-01T12:00:00Z");
     ("company", obj []);
     ("locations", PList [])].

Definition fields_no_date : gmap string pyval :=
  list_to_map [("type", PStr "external"); ("name", PStr "Analyst")].

Definition fields_nameless_location : gmap string pyval :=
  list_to_map
    [("publication_date", PStr "2023-05-01T12:00:00Z");
     ("locations", PList [obj [("id", PInt 7)]])].

Definition row_austin : list (string * pyval) :=
  [("publication_date", PStr "2023-05-01");
   ("job_type", PStr "external");
   ("job", PStr "Data Engineer");
   ("company", PStr "Acme");
   ("city", PStr "Austin");
   ("country", PStr "USA")].

Definition row_remote : list (string * pyval) :=
  [("publication_date", PStr "2023-05");
   ("job_type", PNone);
   ("job", PNone);
   ("company", PNone);
   ("city", PStr "N/A");
   ("country", PStr "N/A")].

Definition row_empty_company : list (string * pyval) :=
  [("publication_date", PStr "2023-05-01");
   ("job_type", PNone);
   ("job", PNone);
   ("company", PStr "N/A");
   ("city", PStr "N/A");
   ("country", PStr "N/A")].

(** A response with the given records under [results]. *)
Definition response (jobs : list pyval) : pyval :=
  obj [("results", PList jobs)].

(** ** The rest of the pipeline: [read_api], [save_to_csv] and [main] *)

(** Exceptions of the whole script: the built-in ones of [exn], the family
    of [requests.exceptions.RequestException] (the class name and the
    status code of the response the exception carries, if it carries one),
    and any other class a library may raise. *)
Inductive pyexn : Type :=
  | Builtin (e : exn)
  | RequestException (cls : string) (response : option Z)
  | LibraryError (cls : string).

Inductive outcome (A : Type) : Type :=
  | Returns (a : A)
  | Throws (e : pyexn).
Arguments Returns {A} a.
Arguments Throws {A} e.

(** What the script reads of a [requests.Response]: the status code and
    what [response.json()] does, which is to return the decoded body or to
    raise. *)
Record Response : Type := mkResponse {
  status_code : Z;
  json : outcome pyval
}.

(** The surroundings of a run, which the script only queries:
    what [toml.load] does for a path, what [requests.get] does for a URL,
    whether [df.to_csv] to a path fails, and how the operating system runs
    a command. *)
Record environment : Type := mkEnvironment {
  toml_load : string → outcome pyval;
  requests_get : pyval → outcome Response;
  to_csv : pd.DataFrame → string → option pyexn;
  run_command : list string → exec_outcome
}.

(** What a diagnostic shows after its fixed text. *)
Inductive shown : Type :=
  | ShownStatus (code : Z)
  | ShownExn (e : pyexn).

(** The observable actions of a run, in the order they happen.
    [HttpGet url] is a call of [requests.get(url)], whatever comes of it;
    [FileWrite path df] is a completed [to_csv] of [df] to [path], the CSV
    text itself being pandas' and identified with the frame; [Spawn argv]
    is a command that ran to its exit. *)
Inductive event : Type :=
  | Stdout (line : string)
  | Stderr (msg : string) (what : shown)
  | HttpGet (url : pyval)
  | FileWrite (path : string) (df : pd.DataFrame)
  | Spawn (argv : list string).

(** A procedure of the script: it extends the trace and returns or raises. *)
Definition prog (A : Type) : Type := list event → outcome A * list event.

#[global] Instance prog_ret : MRet prog := λ A a t, (Returns a, t).
#[global] Instance prog_bind : MBind prog := λ A B f p t,
  match p t with
  | (Returns a, t') => f a t'
  | (Throws e, t') => (Throws e, t')
  end.

Definition emit (ev : event) : prog unit := λ t, (Returns (), t ++ [ev]).

(** [print(line)]. *)
Definition print (line : string) : prog unit := emit (Stdout line).

(** The result of a call that leaves no trace. *)
Definition call {A} (o : outcome A) : prog A := λ t, (o, t).

(** An expression over decoded values, inside a procedure. *)
Definition pure {A} (r : result A) : prog A := λ t,
  (match r with Ok a => Returns a | Raise e => Throws (Builtin e) end, t).

(** [try: body except Exception as err: print(msg + str(err), file=sys.stderr); raise]. *)
Definition try_report {A} (msg : string) (body : prog A) : prog A := λ t,
  match body t with
  | (Returns a, t') => (Returns a, t')
  | (Throws err, t') => (Throws err, t' ++ [Stderr msg (ShownExn err)])
  end.

(** A procedure written against [world], run inside the script: it starts
    from a world with nothing printed and nothing run, and what it printed
    and ran is appended to the trace.  Neither [transform_data] nor
    [upload_to_s3] prints after running a command in the same call, so
    commands are listed first. *)
Definition in_world {A} (env : environment) (f : world → result A * world) : prog A := λ t,
  let '(r, w) := f {| stderr := []; spawned := []; os_exec := run_command env |} in
  (match r with Ok a => Returns a | Raise e => Throws (Builtin e) end,
   t ++ (Spawn <$> spawned w)
     ++ ((λ d, Stderr d.1 (ShownExn (Builtin d.2))) <$> stderr w)).

(** [response.raise_for_status()]: statuses 400 to 599 raise an
    [HTTPError] that carries the response. *)
Definition raise_for_status (r : Response) : outcome unit :=
  if ((400 <=? status_code r) && (status_code r <? 600))%Z
  then Throws (RequestException "HTTPError" (Some (status_code r)))
  else Returns ().

(** The statuses that [raise_for_status] turns into an exception. *)
Definition http_error_status (code : Z) : Prop := (400 ≤ code < 600)%Z.

(** Lines 27-29: the body of the [try] of [read_api]. *)
Definition read_api_body (env : environment) (url : pyval) : outcome pyval :=
  match requests_get env url with
  | Throws e => Throws e
  | Returns response =>
      match raise_for_status response with
      | Throws e => Throws e
      | Returns _ => json response
      end
  end.

(** Lines 26-36.  The handler catches the [RequestException] family only,
    and formats [err.response.status_code] before it prints: when the
    exception carries no response, that attribute access raises an
    [AttributeError] in its place and nothing is printed. *)
Definition read_api (env : environment) (url : pyval) : prog pyval := λ t,
  let t1 := t ++ [HttpGet url] in
  match read_api_body env url with
  | Returns data => (Returns data, t1)
  | Throws (RequestException cls (Some code)) =>
      (Throws (RequestException cls (Some code)),
       t1 ++ [Stderr "[ERROR: ] occured reading the API with status code: "
                     (ShownStatus code)])
  | Throws (RequestException cls None) => (Throws (Builtin AttributeError), t1)
  | Throws e => (Throws e, t1)
  end.

(** Lines 104-109. *)
Definition save_to_csv (env : environment) (df : pd.DataFrame) (file_name : string)
  : prog unit :=
  try_report "[ERROR: ] saving DataFrame to CSV : "
    (λ t, match to_csv env df file_name with
          | None => (Returns (), t ++ [FileWrite file_name df])
          | Some err => (Throws err, t)
          end).

(** [upload_to_s3] declares [bucket] and [folder] as [str] and never reads
    them; [main] hands over whatever the configuration holds. *)
Definition as_str (v : pyval) : string :=
  match v with PStr s => s | _ => EmptyString end.

(** Lines 149-167: the body of the [try] of [main]. *)
Definition main_body (env : environment) : prog unit :=
  app_config ← call (toml_load env "config.toml");
  url ← pure (api ← Py.getitem app_config "api"; Py.getitem api "url");
  _ ← print "Reading the API....";
  data ← read_api env url;
  _ ← print "API Done Reading!";
  _ ← print "Building DataFrame..";
  df ← in_world env (transform_data data);
  let file_name := "jobs.csv" in
  _ ← print ("DataFrame saved to local file called " +:+ file_name);
  _ ← save_to_csv env df file_name;
  _ ← print "Uploading to AWS S3....";
  bucket ← pure (aws ← Py.getitem app_config "aws"; Py.getitem aws "bucket");
  folder ← pure (aws ← Py.getitem app_config "aws"; Py.getitem aws "folder");
  _ ← in_world env (upload_to_s3 file_name (as_str bucket) (as_str folder));
  print "File Uploading Done!".

(** Lines 148-171. *)
Definition main (env : environment) : prog unit :=
  try_report "[ERROR: ] in main: " (main_body env).

(** Lines 173-174: the exit status of the script, 1 after an uncaught
    exception. *)
Definition script (env : environment) : Z * list event :=
  match main env [] with
  | (Returns _, t) => (0%Z, t)
  | (Throws _, t) => (1%Z, t)
  end.

Definition is_spawn (ev : event) : bool :=
  match ev with Spawn _ => true | _ => false end.
Definition is_file_write (ev : event) : bool :=
  match ev with FileWrite _ _ => true | _ => false end.
Definition is_http_get (ev : event) : bool :=
  match ev with HttpGet _ => true | _ => false end.
Definition is_action (ev : event) : bool :=
  is_http_get ev || is_file_write ev || is_spawn ev.
Definition stdout_lines (t : list event) : list string :=
  omap (λ ev, match ev with Stdout line => Some line | _ => None end) t.

(** A sample configuration and sample surroundings. *)
Definition config_full : pyval :=
  obj [("api", obj [("url", PStr "https://www.themuse.com/api/public/jobs?page=50")]);
       ("aws", obj [("bucket", PStr "my-bucket"); ("folder", PStr "input/")])].

Definition config_no_aws : pyval :=
  obj [("api", obj [("url", PStr "https://www.themuse.com/api/public/jobs?page=50")])].

Definition env_with (config : pyval) (reply : outcome Response)
    (csv_error : option pyexn) (exit : exec_outcome) : environment :=
  {| toml_load := λ _, Returns config;
     requests_get := λ _, reply;
     to_csv := λ _ _, csv_error;
     run_command := λ _, exit |}.

(** The same surroundings with another content of the configuration file. *)
Definition with_config (env : environment) (config : pyval) : environment :=
  {| toml_load := λ _, Returns config;
     requests_get := requests_get env;
     to_csv := to_csv env;
     run_command := run_command env |}.

Definition reply_ok (jobs : list pyval) : outcome Response :=
  Returns {| status_code := 200; json := Returns (response jobs) |}.

(** ** Strings: splitting and counting *)

Section strings.
Implicit Types (s a b : string) (sep c : ascii).

Lemma str_split_length sep s :
  length (str_split sep s) = S (str_count sep s).
Proof.
  induction s as [|c s IH]; simpl; [done|].
  destruct (Ascii.eqb c sep); simpl; [by rewrite IH|].
  destruct (str_split sep s); simpl in *; lia.
Qed.

Lemma str_split_no_sep sep s :
  str_count sep s = 0 → str_split sep s = [s].
Proof.
  induction s as [|c s IH]; simpl; [done|].
  destruct (Ascii.eqb c sep); [done|].
  intros Hc. by rewrite IH.
Qed.

Lemma str_split_app sep a b :
  str_count sep a = 0 →
  str_split sep (a +:+ String sep b) = a :: str_split sep b.
Proof.
  induction a as [|c a IH]; simpl.
  - intros _. by rewrite Ascii.eqb_refl.
  - destruct (Ascii.eqb c sep); [done|].
    intros Hc. by rewrite IH.
Qed.

Lemma str_count_app c a b :
  str_count c (a +:+ b) = str_count c a + str_count c b.
Proof. induction a as [|d a IH]; simpl; [done|]. rewrite IH. lia. Qed.

(** A string with a positive count has a first occurrence. *)
Lemma str_count_first c s :
  str_count c s ≠ 0 →
  ∃ a b, s = a +:+ String c b ∧ str_count c a = 0.
Proof.
  induction s as [|d s IH]; simpl; [done|].
  destruct (Ascii.eqb_spec d c) as [->|Hne]; simpl.
  - intros _. by exists EmptyString, s.
  - intros Hc. destruct (IH Hc) as (a & b & -> & Ha).
    exists (String d a), b. split; [done|]. simpl.
    destruct (Ascii.eqb_spec d c); [done|]. by rewrite Ha.
Qed.

Lemma str_contains_comma s :
  str_contains "," s = negb (Nat.eqb (str_count comma s) 0).
Proof.
  induction s as [|c s IH]; [done|].
  cbn [str_contains str_count String.prefix]. rewrite IH.
  destruct (ascii_dec "," c) as [<-|Hne].
  - by destruct s.
  - destruct (Ascii.eqb_spec c comma) as [->|_]; [done|].
    by destruct (str_count comma s).
Qed.

Lemma str_slice_to_prefix n s :
  ∃ rest, s = str_slice_to n s +:+ rest.
Proof.
  unfold str_slice_to. revert n.
  induction s as [|c s IH]; intros [|n]; simpl.
  - by exists EmptyString.
  - by exists EmptyString.
  - by exists (String c s).
  - destruct (IH n) as [rest Hrest]. exists rest.
    change (String c s = String c (substring 0 n s +:+ rest)). congruence.
Qed.

Lemma str_slice_to_length n s :
  String.length (str_slice_to n s) = Nat.min n (String.length s).
Proof.
  unfold str_slice_to. revert n.
  induction s as [|c s IH]; intros [|n]; simpl; try done.
  by rewrite IH.
Qed.

Lemma str_slice_to_short n s :
  (String.length s ≤ n)%nat → str_slice_to n s = s.
Proof.
  unfold str_slice_to. revert n.
  induction s as [|c s IH]; intros [|n]; simpl; try done; try lia.
  intros Hle. rewrite IH; [done|lia].
Qed.

End strings.

(** ** Sequencing and the shape of a successful extraction *)

Lemma bind_ok_inv {A B} (r : result A) (f : A → result B) (b : B) :
  r ≫= f = Ok b → ∃ a, r = Ok a ∧ f a = Ok b.
Proof. destruct r as [a|e]; [by exists a | done]. Qed.

Lemma bind_raise {A B} (r : result A) (f : A → result B) :
  raises r → raises (r ≫= f).
Proof. intros [e ->]. by exists e. Qed.

Lemma raises_not_ok {A} (r : result A) (a : A) : raises r → r ≠ Ok a.
Proof. by intros [e ->]. Qed.

Tactic Notation "inv_bind" hyp(H) "as" ident(a) ident(Ha) :=
  apply bind_ok_inv in H as (a & Ha & H).

Lemma get_ok_inv (job v : pyval) (k : string) :
  Py.get job k = Ok v → ∃ m, job = PDict m ∧ v = default PNone (m !! k).
Proof. destruct job; simpl; try done. intros [= <-]. by eexists. Qed.

(** A record that is extracted is a mapping, and the row is made of the
    seven intermediate values of the loop body. *)
Lemma extract_row_inv (job : pyval) (row : list (string * pyval)) :
  extract_row job = Ok row →
  ∃ m publication_date company_name job_location job_city job_country,
    job = PDict m ∧
    Py.slice_to (default PNone (m !! "publication_date")) 10 = Ok publication_date ∧
    company_expr job = Ok company_name ∧
    location_expr job = Ok job_location ∧
    city_country job_location = Ok (job_city, job_country) ∧
    row = [("publication_date", publication_date);
           ("job_type", default PNone (m !! "type"));
           ("job", default PNone (m !! "name"));
           ("company", company_name);
           ("city", job_city);
           ("country", job_country)].
Proof.
  unfold extract_row. intros H.
  inv_bind H as d Hd. apply get_ok_inv in Hd as (m & -> & ->).
  inv_bind H as publication_date Hdate.
  inv_bind H as job_type Htype. injection Htype as <-.
  inv_bind H as job_name Hname. injection Hname as <-.
  inv_bind H as company_name Hcompany.
  inv_bind H as job_location Hlocation.
  inv_bind H as cc Hcc. destruct cc as [job_city job_country].
  injection H as <-.
  by exists m, publication_date, company_name, job_location, job_city, job_country.
Qed.

(** ** Line 74: the split of the location name *)

Lemma city_country_no_comma (s : string) :
  str_count comma s = 0 → city_country (PStr s) = Ok (NA, NA).
Proof.
  intros Hc. unfold city_country. simpl.
  by rewrite str_contains_comma, Hc.
Qed.

Lemma city_country_one_comma (a b : string) :
  str_count comma a = 0 → str_count comma b = 0 →
  city_country (PStr (a +:+ String comma b)) = Ok (PStr a, PStr b).
Proof.
  intros Ha Hb. unfold city_country. simpl.
  rewrite str_contains_comma, str_count_app, Ha. simpl.
  by rewrite str_split_app, (str_split_no_sep _ b).
Qed.

Lemma city_country_many_commas (s : string) :
  (2 ≤ str_count comma s)%nat → city_country (PStr s) = Raise ValueError.
Proof.
  intros Hc. unfold city_country. simpl.
  rewrite str_contains_comma.
  destruct (str_count comma s) as [|n] eqn:Hn; [lia|]. simpl.
  pose proof (str_split_length comma s) as Hlen. rewrite Hn in Hlen.
  destruct (str_split comma s) as [|p [|q [|r ps]]]; simpl in *; try lia; done.
Qed.

(** Whatever the location value is, two values that come out of line 74
    are strings. *)
Lemma city_country_strings (job_location job_city job_country : pyval) :
  city_country job_location = Ok (job_city, job_country) →
  ∃ a b, job_city = PStr a ∧ job_country = PStr b.
Proof.
  unfold city_country. intros H.
  inv_bind H as found Hfound. inv_bind H as parts Hparts.
  destruct found.
  - destruct job_location; simpl in Hparts; try done.
    injection Hparts as <-.
    destruct (str_split comma s) as [|p [|q [|r ps]]]; simpl in H; try done.
    injection H as <- <-. by exists p, q.
  - injection Hparts as <-. simpl in H. injection H as <- <-.
    by exists "N/A", "N/A".
Qed.

(** ** The loop *)

Lemma for_jobs_raises (jobs : list pyval) (df : pd.DataFrame) :
  Exists (λ job, raises (extract_row job)) jobs → raises (for_jobs jobs df).
Proof.
  intros Hex. revert df.
  induction Hex as [job rest Hjob | job rest _ IH]; intros df; simpl.
  - by apply bind_raise.
  - destruct (extract_row job) as [row|e]; simpl; [apply IH | by exists e].
Qed.

Lemma transform_data_raises (data : pyval) (w : world) :
  raises (transform_body data) → raises (transform_data data w).1.
Proof. intros [e He]. unfold transform_data. rewrite He. by exists e. Qed.

Lemma transform_body_list (data : pyval) (jobs : list pyval) :
  Py.getitem data "results" = Ok (PList jobs) →
  transform_body data = for_jobs jobs (pd.empty COLUMNS).
Proof. intros H. unfold transform_body. by rewrite H. Qed.

(** Iterating over a mapping hands its keys, which are strings, to the
    loop body: the first one already has no [get], in whatever order the
    keys come. *)
Lemma iter_dict_fails (data : pyval) (m : gmap string pyval) :
  Py.getitem data "results" = Ok (PDict m) → m ≠ ∅ →
  transform_body data = Raise AttributeError.
Proof.
  intros H Hne. unfold transform_body. rewrite H. simpl.
  destruct (map_to_list m) as [|[k v] kvs] eqn:Hkvs; [|done].
  by apply map_to_list_empty_iff in Hkvs.
Qed.

(** ** Line 72: the company name *)

Lemma company_expr_absent (m : gmap string pyval) :
  m !! "company" = None → company_expr (PDict m) = Ok NA.
Proof. intros H. unfold company_expr. simpl. by rewrite H. Qed.

Lemma company_expr_falsy (m : gmap string pyval) (c : pyval) :
  m !! "company" = Some c → Py.truthy c = false →
  company_expr (PDict m) = Ok NA.
Proof. intros H Hc. unfold company_expr. simpl. rewrite H. simpl. by rewrite Hc. Qed.

Lemma company_expr_mapping (m cm : gmap string pyval) :
  m !! "company" = Some (PDict cm) → cm ≠ ∅ →
  company_expr (PDict m) = Ok (default PNone (cm !! "name")).
Proof.
  intros H Hne. unfold company_expr. simpl. rewrite H. simpl.
  by rewrite bool_decide_eq_false_2.
Qed.

(** ** Line 73: the name of the first location *)

Lemma location_expr_absent (m : gmap string pyval) :
  m !! "locations" = None → location_expr (PDict m) = Ok NA.
Proof. intros H. unfold location_expr. simpl. by rewrite H. Qed.

Lemma location_expr_empty (m : gmap string pyval) :
  m !! "locations" = Some (PList []) → location_expr (PDict m) = Ok NA.
Proof. intros H. unfold location_expr. simpl. by rewrite H. Qed.

Lemma location_expr_first (m loc : gmap string pyval) (rest : list pyval) :
  m !! "locations" = Some (PList (PDict loc :: rest)) →
  location_expr (PDict m) = Ok (default PNone (loc !! "name")).
Proof. intros H. unfold location_expr. simpl. by rewrite H. Qed.

(** * Properties of the specification *)

(** C1. The spec has the location name split on the first comma only, so
    that ["New York, NY, USA"] gives city ["New York"] and country
    [" NY, USA"].  On that record the code reaches line 74 with the name,
    [split(',')] cuts at both commas, the three pieces do not fit the two
    targets, and the extraction, and with it the whole build, ends in a
    [ValueError]. *)
Theorem C1_new_york_raises :
  location_expr (PDict fields_new_york) = Ok (PStr "New York, NY, USA") ∧
  Py.split (PStr "New York, NY, USA") comma
    = Ok [PStr "New York"; PStr " NY"; PStr " USA"] ∧
  extract_row (PDict fields_new_york) = Raise ValueError ∧
  ∀ w, (transform_data (response [PDict fields_new_york]) w).1 = Raise ValueError.
Proof.
  assert (transform_body (response [PDict fields_new_york]) = Raise ValueError)
    as Hbody by (vm_compute; reflexivity).
  split; [vm_compute; reflexivity|].
  split; [vm_compute; reflexivity|].
  split; [vm_compute; reflexivity|].
  intros w. unfold transform_data. by rewrite Hbody.
Qed.

(** With exactly one comma the two pieces are the text before and the
    text after it, untrimmed. *)
Lemma extract_row_one_comma (m loc : gmap string pyval) (rest : list pyval)
    (a b : string) (row : list (string * pyval)) :
  m !! "locations" = Some (PList (PDict loc :: rest)) →
  loc !! "name" = Some (PStr (a +:+ String comma b)) →
  str_count comma a = 0 → str_count comma b = 0 →
  extract_row (PDict m) = Ok row →
  field row "city" = Some (PStr a) ∧ field row "country" = Some (PStr b).
Proof.
  intros Hloc Hname Ha Hb Hrow.
  apply extract_row_inv in Hrow
    as (m' & pdv & cn & jl & city & country & [= <-] & _ & _ & Hl & Hcc & ->).
  rewrite (location_expr_first _ _ _ Hloc), Hname in Hl. injection Hl as <-.
  rewrite city_country_one_comma in Hcc by done. by injection Hcc as <- <-.
Qed.

(** C2, counterexample.  A record whose [company] is the empty mapping is
    extracted with company ["N/A"], not with the no-value marker: the
    empty mapping is falsy, so the conditional takes its [else] branch. *)
Lemma C2_empty_company_is_NA :
  fields_empty_company !! "company" = Some (PDict ∅) ∧
  ∃ row, extract_row (PDict fields_empty_company) = Ok row ∧
         field row "company" = Some (PStr "N/A") ∧
         field row "company" ≠ Some PNone.
Proof.
  split; [vm_compute; reflexivity|].
  exists row_empty_company. split; [vm_compute; reflexivity|].
  split; [vm_compute; reflexivity|]. vm_compute. discriminate.
Qed.

(** C2, amended.  The company of an extracted row is ["N/A"] when the
    record has no [company] key or a falsy [company] (null, the empty
    mapping); it is the no-value marker [None], which is not ["N/A"],
    when [company] is a non-empty mapping without [name]; and it is
    [company.name] verbatim when that is present. *)
Theorem C2_company_fallback (m : gmap string pyval) (row : list (string * pyval)) :
  extract_row (PDict m) = Ok row →
  (m !! "company" = None → field row "company" = Some (PStr "N/A")) ∧
  (∀ c, m !! "company" = Some c → Py.truthy c = false →
        field row "company" = Some (PStr "N/A")) ∧
  (∀ cm, m !! "company" = Some (PDict cm) → cm ≠ ∅ → cm !! "name" = None →
         field row "company" = Some PNone) ∧
  (∀ cm v, m !! "company" = Some (PDict cm) → cm !! "name" = Some v →
           field row "company" = Some v) ∧
  PNone ≠ PStr "N/A".
Proof.
  intros Hrow.
  apply extract_row_inv in Hrow
    as (m' & pdv & cn & jl & city & country & [= <-] & _ & Hc & _ & _ & ->).
  repeat split; try done.
  - intros H. rewrite (company_expr_absent _ H) in Hc. by injection Hc as <-.
  - intros c H Hf. rewrite (company_expr_falsy _ _ H Hf) in Hc. by injection Hc as <-.
  - intros cm H Hne Hname.
    rewrite (company_expr_mapping _ _ H Hne), Hname in Hc. by injection Hc as <-.
  - intros cm v H Hname.
    rewrite (company_expr_mapping _ cm H), Hname in Hc.
    + by injection Hc as <-.
    + intros ->. by rewrite lookup_empty in Hname.
Qed.

Lemma C2_company_fallback_witness :
  extract_row (PDict fields_remote) = Ok row_remote ∧
  fields_remote !! "company" = Some (obj [("id", PInt 42)]) ∧
  field row_remote "company" = Some PNone.
Proof.
  assert (extract_row (PDict fields_remote) = Ok row_remote) as Hrow
    by (vm_compute; reflexivity).
  split; [exact Hrow|]. split; [vm_compute; reflexivity|].
  destruct (C2_company_fallback fields_remote row_remote Hrow)
    as (_ & _ & Hnameless & _).
  apply (Hnameless (list_to_map [("id", PInt 42)])).
  - vm_compute; reflexivity.
  - vm_compute; discriminate.
  - vm_compute; reflexivity.
Defined.

(** C3. Table building is all-or-nothing: when the extraction of any one
    record raises, [transform_data] raises too; it returns no table,
    whatever rows were accumulated before, and leaves one diagnostic on
    the error stream. *)
Theorem C3_all_or_nothing (data : pyval) (jobs : list pyval) (w : world) :
  Py.getitem data "results" = Ok (PList jobs) →
  Exists (λ job, raises (extract_row job)) jobs →
  (∃ err, transform_data data w
          = (Raise err,
             print_stderr "[ERROR: ] occured building the DataFrame: " err w)) ∧
  ∀ df, (transform_data data w).1 ≠ Ok df.
Proof.
  intros Hresults Hbad.
  assert (raises (transform_body data)) as [err Herr].
  { rewrite (transform_body_list _ _ Hresults). by apply for_jobs_raises. }
  unfold transform_data. rewrite Herr. split; [by exists err | done].
Qed.

Lemma C3_all_or_nothing_witness :
  extract_row (PDict fields_austin) = Ok row_austin ∧
  extract_row (PDict fields_no_date) = Raise TypeError ∧
  ∀ df, (transform_data
           (response [PDict fields_austin; PDict fields_austin;
                      PDict fields_austin; PDict fields_no_date])
           quiet_world).1 ≠ Ok df.
Proof.
  split; [vm_compute; reflexivity|].
  split; [vm_compute; reflexivity|].
  apply (C3_all_or_nothing _
           [PDict fields_austin; PDict fields_austin;
            PDict fields_austin; PDict fields_no_date]).
  - vm_compute; reflexivity.
  - do 3 apply Exists_cons_tl. apply Exists_cons_hd.
    exists TypeError. vm_compute; reflexivity.
Defined.

(** C6. When [publication_date] is present with a string, the extracted
    date is the first ten characters of that string: a prefix of it of
    length [min 10 (len s)], hence the whole string when it is shorter
    than ten characters.  Line 69 does not raise on such a record. *)
Theorem C6_publication_date_prefix (m : gmap string pyval) (s : string) :
  m !! "publication_date" = Some (PStr s) →
  (Py.get (PDict m) "publication_date" ≫= λ d, Py.slice_to d 10)
    = Ok (PStr (str_slice_to 10 s)) ∧
  (∀ row, extract_row (PDict m) = Ok row →
          field row "publication_date" = Some (PStr (str_slice_to 10 s))) ∧
  (∃ rest, s = str_slice_to 10 s +:+ rest) ∧
  String.length (str_slice_to 10 s) = Nat.min 10 (String.length s) ∧
  ((String.length s ≤ 10)%nat → str_slice_to 10 s = s).
Proof.
  intros Hdate. split; [by simpl; rewrite Hdate|]. split.
  - intros row Hrow.
    apply extract_row_inv in Hrow
      as (m' & pdv & cn & jl & city & country & [= <-] & Hd & _ & _ & _ & ->).
    rewrite Hdate in Hd. simpl in Hd. by injection Hd as <-.
  - split; [apply str_slice_to_prefix|].
    split; [apply str_slice_to_length | apply str_slice_to_short].
Qed.

Lemma C6_publication_date_prefix_witness :
  fields_austin !! "publication_date" = Some (PStr "2023-05-01T12:00:00Z") ∧
  extract_row (PDict fields_austin) = Ok row_austin ∧
  field row_austin "publication_date" = Some (PStr "2023-05-01").
Proof.
  assert (fields_austin !! "publication_date" = Some (PStr "2023-05-01T12:00:00Z"))
    as Hdate by (vm_compute; reflexivity).
  assert (extract_row (PDict fields_austin) = Ok row_austin) as Hrow
    by (vm_compute; reflexivity).
  split; [exact Hdate|]. split; [exact Hrow|].
  destruct (C6_publication_date_prefix fields_austin _ Hdate) as (_ & Hfield & _).
  exact (Hfield row_austin Hrow).
Defined.

(** C7. When [locations] is absent or empty, or the name of the first
    location is a string without a comma, lines 73-74 do not raise and
    give ["N/A"] for both the city and the country, and so does every
    extracted row. *)
Theorem C7_no_location_is_NA (m : gmap string pyval) :
  m !! "locations" = None ∨
  m !! "locations" = Some (PList []) ∨
  (∃ loc rest s, m !! "locations" = Some (PList (PDict loc :: rest)) ∧
                 loc !! "name" = Some (PStr s) ∧ str_count comma s = 0) →
  (location_expr (PDict m) ≫= city_country) = Ok (PStr "N/A", PStr "N/A") ∧
  ∀ row, extract_row (PDict m) = Ok row →
         field row "city" = Some (PStr "N/A") ∧
         field row "country" = Some (PStr "N/A").
Proof.
  intros Hcase.
  assert (∃ s, location_expr (PDict m) = Ok (PStr s) ∧ str_count comma s = 0)
    as (s & Hloc & Hs).
  { destruct Hcase as [H | [H | (loc & rest & s & H & Hname & Hs)]].
    - exists "N/A". by rewrite (location_expr_absent _ H).
    - exists "N/A". by rewrite (location_expr_empty _ H).
    - exists s. by rewrite (location_expr_first _ _ _ H), Hname. }
  split.
  - rewrite Hloc. simpl. by apply city_country_no_comma.
  - intros row Hrow.
    apply extract_row_inv in Hrow
      as (m' & pdv & cn & jl & city & country & [= <-] & _ & _ & Hl & Hcc & ->).
    rewrite Hloc in Hl. injection Hl as <-.
    rewrite (city_country_no_comma _ Hs) in Hcc. by injection Hcc as <- <-.
Qed.

Lemma C7_no_location_is_NA_witness :
  (extract_row (PDict fields_remote) = Ok row_remote ∧
   field row_remote "city" = Some (PStr "N/A") ∧
   field row_remote "country" = Some (PStr "N/A")) ∧
  (extract_row (PDict fields_empty_company) = Ok row_empty_company ∧
   field row_empty_company "city" = Some (PStr "N/A") ∧
   field row_empty_company "country" = Some (PStr "N/A")).
Proof.
  split.
  - split; [vm_compute; reflexivity|].
    apply (C7_no_location_is_NA fields_remote); [|vm_compute; reflexivity].
    right; right. exists (list_to_map [("name", PStr "Remote")]), [], "Remote".
    split; [vm_compute; reflexivity|]. split; [vm_compute; reflexivity|].
    vm_compute; reflexivity.
  - split; [vm_compute; reflexivity|].
    apply (C7_no_location_is_NA fields_empty_company); [|vm_compute; reflexivity].
    right; left. vm_compute; reflexivity.
Defined.

(** C10. When [locations] is a non-empty list whose first element is a
    mapping without [name], line 73 yields [None], the membership test of
    line 74 raises a [TypeError], and so the extraction of the record
    raises instead of falling back to ["N/A"]; every build whose input
    holds such a record raises as well. *)
Theorem C10_nameless_location_raises (m loc : gmap string pyval) (rest : list pyval) :
  m !! "locations" = Some (PList (PDict loc :: rest)) →
  loc !! "name" = None →
  (location_expr (PDict m) = Ok PNone ∧ city_country PNone = Raise TypeError) ∧
  raises (extract_row (PDict m)) ∧
  (∀ row, extract_row (PDict m) ≠ Ok row) ∧
  ∀ data jobs w,
    Py.getitem data "results" = Ok (PList jobs) → PDict m ∈ jobs →
    raises (transform_data data w).1.
Proof.
  intros Hloc Hname.
  assert (location_expr (PDict m) = Ok PNone) as Hl.
  { by rewrite (location_expr_first _ _ _ Hloc), Hname. }
  assert (raises (extract_row (PDict m))) as Hraises.
  { destruct (extract_row (PDict m)) as [row|e] eqn:Hrow; [|by exists e].
    apply extract_row_inv in Hrow
      as (m' & pdv & cn & jl & city & country & [= <-] & _ & _ & Hl' & Hcc & _).
    rewrite Hl in Hl'. injection Hl' as <-. done. }
  split; [done|]. split; [done|]. split.
  - intros row. by apply raises_not_ok.
  - intros data jobs w Hresults Hin.
    apply transform_data_raises.
    rewrite (transform_body_list _ _ Hresults).
    apply for_jobs_raises, Exists_exists. by exists (PDict m).
Qed.

Lemma C10_nameless_location_raises_witness :
  fields_nameless_location !! "locations" = Some (PList [obj [("id", PInt 7)]]) ∧
  extract_row (PDict fields_nameless_location) = Raise TypeError ∧
  raises (transform_data
            (response [PDict fields_austin; PDict fields_nameless_location])
            quiet_world).1.
Proof.
  split; [vm_compute; reflexivity|]. split; [vm_compute; reflexivity|].
  destruct (C10_nameless_location_raises fields_nameless_location
              (list_to_map [("id", PInt 7)]) []) as (_ & _ & _ & Hbuild).
  - vm_compute; reflexivity.
  - vm_compute; reflexivity.
  - apply (Hbuild _ [PDict fields_austin; PDict fields_nameless_location]).
    + vm_compute; reflexivity.
    + apply list_elem_of_further, list_elem_of_here.
Defined.

(** ** The frame built by the loop *)

Lemma row_keys (job : pyval) (row : list (string * pyval)) :
  extract_row job = Ok row → row.*1 = COLUMNS.
Proof.
  intros Hrow.
  by apply extract_row_inv in Hrow as (? & ? & ? & ? & ? & ? & _ & _ & _ & _ & _ & ->).
Qed.

Lemma from_records_row (job : pyval) (row : list (string * pyval)) :
  extract_row job = Ok row →
  pd.from_records [row] = {| pd.columns := COLUMNS; pd.values := [row.*2] |}.
Proof.
  intros Hrow.
  by apply extract_row_inv in Hrow as (? & ? & ? & ? & ? & ? & _ & _ & _ & _ & _ & ->).
Qed.

Lemma reindex_same (vals : list (list pyval)) :
  Forall (λ r, length r = 6) vals →
  pd.reindex COLUMNS {| pd.columns := COLUMNS; pd.values := vals |} = vals.
Proof.
  unfold pd.reindex. simpl.
  induction 1 as [|r vals Hr _ IH]; [done|].
  rewrite fmap_cons, IH. f_equal.
  destruct r as [|v1 [|v2 [|v3 [|v4 [|v5 [|v6 [|v7 r]]]]]]]; simpl in Hr; try lia.
  reflexivity.
Qed.

Lemma concat_same (vals1 vals2 : list (list pyval)) :
  Forall (λ r, length r = 6) vals1 →
  Forall (λ r, length r = 6) vals2 →
  pd.concat [ {| pd.columns := COLUMNS; pd.values := vals1 |};
              {| pd.columns := COLUMNS; pd.values := vals2 |} ]
  = {| pd.columns := COLUMNS; pd.values := vals1 ++ vals2 |}.
Proof.
  intros H1 H2. unfold pd.concat.
  change (foldl pd.union_labels [] _) with COLUMNS.
  simpl. by rewrite !reindex_same, app_nil_r.
Qed.

Lemma row_cells_length (job : pyval) (row : list (string * pyval)) :
  extract_row job = Ok row → length (row.*2) = 6.
Proof.
  intros Hrow. rewrite length_fmap, <- (length_fmap fst).
  by rewrite (row_keys _ _ Hrow).
Qed.

(** The loop appends, in input order, the cells of each extracted row. *)
Lemma for_jobs_ok (jobs : list pyval) (vals : list (list pyval)) :
  Forall (λ r, length r = 6) vals →
  Forall (λ job, is_ok (extract_row job) = true) jobs →
  ∃ rows,
    Forall2 (λ job row, extract_row job = Ok row) jobs rows ∧
    for_jobs jobs {| pd.columns := COLUMNS; pd.values := vals |}
    = Ok {| pd.columns := COLUMNS; pd.values := vals ++ ((λ row, row.*2) <$> rows) |}.
Proof.
  intros Hvals Hjobs. revert vals Hvals.
  induction Hjobs as [|job jobs Hjob _ IH]; intros vals Hvals.
  - exists []. split; [constructor|]. simpl. by rewrite app_nil_r.
  - destruct (extract_row job) as [row|e] eqn:Hrow; [|done].
    pose proof (row_cells_length _ _ Hrow) as Hlen.
    destruct (IH (vals ++ [row.*2])) as (rows & Hrows & Hfor).
    { apply Forall_app. split; [done|]. by constructor. }
    exists (row :: rows). split; [by constructor|].
    simpl. rewrite Hrow. simpl.
    rewrite (from_records_row _ _ Hrow), concat_same; [|done|by constructor].
    rewrite Hfor. by rewrite <- app_assoc.
Qed.

Lemma cell_of_row (job : pyval) (row : list (string * pyval)) (col : string) :
  extract_row job = Ok row → pd.assoc col (zip COLUMNS (row.*2)) = field row col.
Proof.
  intros Hrow.
  by apply extract_row_inv in Hrow as (? & ? & ? & ? & ? & ? & _ & _ & _ & _ & _ & ->).
Qed.

(** C4, counterexample.  The table built from one record has one row and
    six columns, not five. *)
Lemma C4_six_columns_not_five :
  ∃ df, (transform_data (response [PDict fields_austin]) quiet_world).1 = Ok df ∧
        length (pd.values df) = 1 ∧
        length (pd.columns df) ≠ 5.
Proof.
  eexists. split; [vm_compute; reflexivity|]. split; [reflexivity|].
  vm_compute. discriminate.
Qed.

(** C4, amended.  For a response whose [results] is a list of N records
    that all extract, [transform_data] returns a table, prints nothing and
    runs nothing; the table has exactly the six columns
    [publication_date, job_type, job, company, city, country] in that
    order and exactly N rows, the i-th row holding the fields extracted
    from the i-th record. *)
Theorem C4_rows_and_columns (data : pyval) (jobs : list pyval) (w : world) :
  Py.getitem data "results" = Ok (PList jobs) →
  Forall (λ job, is_ok (extract_row job) = true) jobs →
  ∃ df,
    transform_data data w = (Ok df, w) ∧
    pd.columns df
      = ["publication_date"; "job_type"; "job"; "company"; "city"; "country"] ∧
    length (pd.values df) = length jobs ∧
    ∀ i job, jobs !! i = Some job →
      ∃ row, extract_row job = Ok row ∧
             pd.values df !! i = Some (row.*2) ∧
             ∀ col, pd.cell df i col = field row col.
Proof.
  intros Hresults Hjobs.
  destruct (for_jobs_ok jobs [] (Forall_nil_2 _) Hjobs) as (rows & Hrows & Hfor).
  simpl in Hfor.
  eexists. split.
  { unfold transform_data.
    rewrite (transform_body_list _ _ Hresults). unfold pd.empty. by rewrite Hfor. }
  split; [done|]. simpl. split.
  - rewrite length_fmap. symmetry. by eapply Forall2_length.
  - intros i job Hi.
    destruct (Forall2_lookup_l _ _ _ _ _ Hrows Hi) as (row & Hrow_i & Hrow).
    exists row. split; [done|].
    assert (((λ row, row.*2) <$> rows) !! i = Some (row.*2)) as Hcells.
    { by rewrite list_lookup_fmap, Hrow_i. }
    split; [done|].
    intros col. unfold pd.cell. simpl. rewrite Hcells. simpl.
    by apply (cell_of_row job).
Qed.

Lemma C4_rows_and_columns_witness :
  ∃ df,
    transform_data (response [PDict fields_austin; PDict fields_remote]) quiet_world
      = (Ok df, quiet_world) ∧
    length (pd.columns df) = 6 ∧
    length (pd.values df) = 2.
Proof.
  destruct (C4_rows_and_columns
              (response [PDict fields_austin; PDict fields_remote])
              [PDict fields_austin; PDict fields_remote] quiet_world)
    as (df & Hrun & Hcols & Hlen & _).
  - vm_compute; reflexivity.
  - repeat constructor; vm_compute; reflexivity.
  - exists df. split; [exact Hrun|]. split; [by rewrite Hcols | exact Hlen].
Defined.

(** C5, counterexample.  A record without [type] is extracted with the
    null marker [None] as its job type, which is not a string; the cell of
    the table holds that [None]. *)
Lemma C5_absent_type_is_None :
  fields_remote !! "type" = None ∧
  extract_row (PDict fields_remote) = Ok row_remote ∧
  field row_remote "job_type" = Some PNone ∧
  is_str PNone = false ∧
  ∃ df, (transform_data (response [PDict fields_remote]) quiet_world).1 = Ok df ∧
        pd.cell df 0 "job_type" = Some PNone.
Proof.
  split; [vm_compute; reflexivity|]. split; [vm_compute; reflexivity|].
  split; [vm_compute; reflexivity|]. split; [reflexivity|].
  eexists. split; vm_compute; reflexivity.
Qed.

(** C5, amended.  After a successful extraction all six fields of the row
    are set; city and country are strings; the publication date is never
    null, and is a string whenever the raw value is one; job type and job
    are the raw [type] and [name] values unchanged, hence the null marker
    [None] when the key is absent. *)
Theorem C5_fields_after_extraction (m : gmap string pyval) (row : list (string * pyval)) :
  extract_row (PDict m) = Ok row →
  (∃ a, field row "city" = Some (PStr a)) ∧
  (∃ b, field row "country" = Some (PStr b)) ∧
  (∃ d, field row "publication_date" = Some d ∧ d ≠ PNone ∧
        (∀ s, m !! "publication_date" = Some (PStr s) → is_str d = true)) ∧
  field row "job_type" = Some (default PNone (m !! "type")) ∧
  field row "job" = Some (default PNone (m !! "name")) ∧
  (m !! "type" = None → field row "job_type" = Some PNone) ∧
  (m !! "name" = None → field row "job" = Some PNone) ∧
  (∃ c, field row "company" = Some c).
Proof.
  intros Hrow.
  apply extract_row_inv in Hrow
    as (m' & pdv & cn & jl & city & country & [= <-] & Hd & _ & _ & Hcc & ->).
  apply city_country_strings in Hcc as (a & b & -> & ->).
  split; [by exists a|]. split; [by exists b|]. split.
  { exists pdv. split; [done|]. split.
    - intros ->. by destruct (default PNone (m !! "publication_date")).
    - intros s Hs. rewrite Hs in Hd. simpl in Hd. by injection Hd as <-. }
  split; [done|]. split; [done|]. split; [by intros -> |].
  split; [by intros -> |]. by exists cn.
Qed.

Lemma C5_fields_after_extraction_witness :
  extract_row (PDict fields_remote) = Ok row_remote ∧
  field row_remote "city" = Some (PStr "N/A") ∧
  field row_remote "job_type" = Some PNone.
Proof.
  assert (extract_row (PDict fields_remote) = Ok row_remote) as Hrow
    by (vm_compute; reflexivity).
  split; [exact Hrow|]. split; [vm_compute; reflexivity|].
  destruct (C5_fields_after_extraction fields_remote row_remote Hrow)
    as (_ & _ & _ & _ & _ & Htype & _).
  apply Htype. vm_compute; reflexivity.
Defined.

(** C8. The arguments [bucket] and [folder] have no influence on
    [upload_to_s3]: for any two choices of them the outcome and the world
    afterwards are the same, and the command that runs copies the file to
    the fixed address [s3://py-project-jobs-s3bucket/input/jobs.csv]. *)
Theorem C8_destination_is_fixed (file_name bucket1 folder1 bucket2 folder2 : string)
    (w : world) :
  upload_to_s3 file_name bucket1 folder1 w = upload_to_s3 file_name bucket2 folder2 w ∧
  ∀ rc, os_exec w ["aws"; "s3"; "cp"; file_name;
                   "s3://py-project-jobs-s3bucket/input/jobs.csv"] = Exited rc →
        spawned (upload_to_s3 file_name bucket1 folder1 w).2
        = spawned w ++ [["aws"; "s3"; "cp"; file_name;
                         "s3://py-project-jobs-s3bucket/input/jobs.csv"]].
Proof.
  split; [reflexivity|].
  intros rc Hrc. unfold upload_to_s3, subprocess_run, upload_argv, S3_DESTINATION.
  by rewrite Hrc.
Qed.

(** C9. Whatever status the upload process exits with, zero or not,
    [upload_to_s3] returns [None] normally and prints no diagnostic. *)
Theorem C9_exit_status_ignored (file_name bucket folder : string) (w : world) (rc : Z) :
  os_exec w (upload_argv file_name) = Exited rc →
  (upload_to_s3 file_name bucket folder w).1 = Ok PNone ∧
  stderr (upload_to_s3 file_name bucket folder w).2 = stderr w.
Proof.
  intros Hrc. unfold upload_to_s3, subprocess_run. by rewrite Hrc.
Qed.

Lemma C9_exit_status_ignored_witness :
  (upload_to_s3 "jobs.csv" "my-bucket" "input/"
     {| stderr := []; spawned := []; os_exec := λ _, Exited 1 |}).1 = Ok PNone.
Proof.
  apply (C9_exit_status_ignored "jobs.csv" "my-bucket" "input/"
           {| stderr := []; spawned := []; os_exec := λ _, Exited 1 |} 1).
  reflexivity.
Defined.

(** * Further properties of the extraction *)

(** The row of a record follows from the four intermediate results. *)
Lemma extract_row_compose (m : gmap string pyval)
    (publication_date company_name job_location job_city job_country : pyval) :
  Py.slice_to (default PNone (m !! "publication_date")) 10 = Ok publication_date →
  company_expr (PDict m) = Ok company_name →
  location_expr (PDict m) = Ok job_location →
  city_country job_location = Ok (job_city, job_country) →
  extract_row (PDict m)
  = Ok [("publication_date", publication_date);
        ("job_type", default PNone (m !! "type"));
        ("job", default PNone (m !! "name"));
        ("company", company_name);
        ("city", job_city);
        ("country", job_country)].
Proof.
  intros Hd Hc Hl Hcc. unfold extract_row.
  change (Py.get (PDict m) "publication_date")
    with (Ok (default PNone (m !! "publication_date"))).
  simpl. rewrite Hd. simpl. rewrite Hc. simpl. rewrite Hl. simpl.
  by rewrite Hcc.
Qed.

(** An exception of an intermediate result is the exception of the row
    when everything before it went through. *)
Lemma extract_row_raises_location (m : gmap string pyval) :
  raises (location_expr (PDict m) ≫= city_country) → raises (extract_row (PDict m)).
Proof.
  intros Hbad.
  destruct (extract_row (PDict m)) as [row|e] eqn:Hrow; [|by exists e].
  apply extract_row_inv in Hrow
    as (m' & pdv & cn & jl & city & country & [= <-] & _ & _ & Hl & Hcc & _).
  rewrite Hl in Hbad. simpl in Hbad. rewrite Hcc in Hbad. by destruct Hbad.
Qed.

Lemma extract_row_raises_company (m : gmap string pyval) :
  raises (company_expr (PDict m)) → raises (extract_row (PDict m)).
Proof.
  intros Hbad.
  destruct (extract_row (PDict m)) as [row|e] eqn:Hrow; [|by exists e].
  apply extract_row_inv in Hrow
    as (m' & pdv & cn & jl & city & country & [= <-] & _ & Hc & _).
  rewrite Hc in Hbad. by destruct Hbad.
Qed.

Lemma transform_data_raises_member (data : pyval) (jobs : list pyval) (job : pyval)
    (w : world) :
  Py.getitem data "results" = Ok (PList jobs) → job ∈ jobs →
  raises (extract_row job) → raises (transform_data data w).1.
Proof.
  intros Hresults Hin Hbad. apply transform_data_raises.
  rewrite (transform_body_list _ _ Hresults).
  apply for_jobs_raises, Exists_exists. by exists job.
Qed.

Lemma city_country_at_most_one (s : string) :
  (str_count comma s ≤ 1)%nat →
  ∃ a b, city_country (PStr s) = Ok (PStr a, PStr b).
Proof.
  intros Hle. destruct (str_count comma s) as [|[|n]] eqn:Hn; [| |lia].
  - exists "N/A", "N/A". by apply city_country_no_comma.
  - destruct (str_count_first comma s) as (a & b & -> & Ha); [lia|].
    rewrite str_count_app, Ha in Hn. simpl in Hn.
    exists a, b. apply city_country_one_comma; [done|]. simpl in Hn. lia.
Qed.

(** X1. A record of the expected shape is always extracted: a string
    under [publication_date], [company] absent or a mapping, [locations]
    absent, empty, or a list that starts with a mapping whose [name] is a
    string with at most one comma.  The keys of the row are the six
    column labels. *)
Theorem extract_row_expected_shape (m : gmap string pyval) (d : string) :
  m !! "publication_date" = Some (PStr d) →
  (m !! "company" = None ∨ ∃ cm, m !! "company" = Some (PDict cm)) →
  (m !! "locations" = None ∨
   m !! "locations" = Some (PList []) ∨
   ∃ loc rest s, m !! "locations" = Some (PList (PDict loc :: rest)) ∧
                 loc !! "name" = Some (PStr s) ∧ (str_count comma s ≤ 1)%nat) →
  ∃ row, extract_row (PDict m) = Ok row ∧ row.*1 = COLUMNS.
Proof.
  intros Hdate Hcompany Hlocations.
  assert (∃ cn, company_expr (PDict m) = Ok cn) as [cn Hcn].
  { destruct Hcompany as [H | [cm H]].
    - eexists. by apply company_expr_absent.
    - destruct (decide (cm = ∅)) as [-> | Hne].
      + eexists. by apply (company_expr_falsy _ _ H).
      + eexists. by apply (company_expr_mapping _ _ H). }
  assert (∃ s, location_expr (PDict m) = Ok (PStr s) ∧ (str_count comma s ≤ 1)%nat)
    as (s & Hloc & Hs).
  { destruct Hlocations as [H | [H | (loc & rest & s & H & Hname & Hs)]].
    - exists "N/A". split; [by apply location_expr_absent | simpl; lia].
    - exists "N/A". split; [by apply location_expr_empty | simpl; lia].
    - exists s. split; [|done]. by rewrite (location_expr_first _ _ _ H), Hname. }
  destruct (city_country_at_most_one s Hs) as (a & b & Hcc).
  eexists. split.
  - apply (extract_row_compose m (PStr (str_slice_to 10 d)) cn (PStr s) (PStr a) (PStr b));
      [by rewrite Hdate | done | done | done].
  - reflexivity.
Qed.

Lemma extract_row_expected_shape_witness :
  ∃ row, extract_row (PDict fields_austin) = Ok row ∧ row.*1 = COLUMNS.
Proof.
  apply (extract_row_expected_shape fields_austin "2023-05-01T12:00:00Z").
  - vm_compute; reflexivity.
  - right. exists (list_to_map [("name", PStr "Acme")]). vm_compute; reflexivity.
  - right; right. exists (list_to_map [("name", PStr "Austin,USA")]), [], "Austin,USA".
    split; [vm_compute; reflexivity|]. split; [vm_compute; reflexivity|].
    vm_compute. lia.
Defined.



(** X3. When the name of the first location holds exactly one comma, the
    city and the country of an extracted row are the two strings around
    that comma: joined by a comma they give the name back, and nothing is
    trimmed. *)
Theorem extract_row_one_comma_joins_back (m loc : gmap string pyval)
    (rest : list pyval) (s : string) (row : list (string * pyval)) :
  m !! "locations" = Some (PList (PDict loc :: rest)) →
  loc !! "name" = Some (PStr s) →
  str_count comma s = 1 →
  extract_row (PDict m) = Ok row →
  ∃ a b, field row "city" = Some (PStr a) ∧
         field row "country" = Some (PStr b) ∧
         s = a +:+ String comma b ∧
         str_count comma a = 0 ∧ str_count comma b = 0.
Proof.
  intros Hloc Hname Hone Hrow.
  destruct (str_count_first comma s) as (a & b & -> & Ha); [lia|].
  assert (str_count comma b = 0) as Hb.
  { rewrite str_count_app, Ha in Hone. simpl in Hone. lia. }
  exists a, b.
  apply extract_row_inv in Hrow
    as (m' & pdv & cn & jl & city & country & [= <-] & _ & _ & Hl & Hcc & ->).
  rewrite (location_expr_first _ _ _ Hloc), Hname in Hl. injection Hl as <-.
  rewrite city_country_one_comma in Hcc by done. by injection Hcc as <- <-.
Qed.

Lemma extract_row_one_comma_joins_back_witness :
  ∃ a b, field row_austin "city" = Some (PStr a) ∧
         field row_austin "country" = Some (PStr b) ∧
         "Austin,USA" = a +:+ String comma b ∧
         str_count comma a = 0 ∧ str_count comma b = 0.
Proof.
  apply (extract_row_one_comma_joins_back fields_austin
           (list_to_map [("name", PStr "Austin,USA")]) []).
  - vm_compute; reflexivity.
  - vm_compute; reflexivity.
  - vm_compute; reflexivity.
  - vm_compute; reflexivity.
Defined.

(** X4. When the name of the first location holds two or more commas,
    line 74 raises a [ValueError]: the record is never extracted, and a
    build whose input list holds it raises. *)
Theorem extract_row_many_commas (m loc : gmap string pyval) (rest : list pyval)
    (s : string) :
  m !! "locations" = Some (PList (PDict loc :: rest)) →
  loc !! "name" = Some (PStr s) →
  (2 ≤ str_count comma s)%nat →
  (location_expr (PDict m) ≫= city_country) = Raise ValueError ∧
  raises (extract_row (PDict m)) ∧
  ∀ data jobs w,
    Py.getitem data "results" = Ok (PList jobs) → PDict m ∈ jobs →
    raises (transform_data data w).1.
Proof.
  intros Hloc Hname Hmany.
  assert ((location_expr (PDict m) ≫= city_country) = Raise ValueError) as Hbad.
  { rewrite (location_expr_first _ _ _ Hloc), Hname. simpl.
    by apply city_country_many_commas. }
  assert (raises (extract_row (PDict m))) as Hraises.
  { apply extract_row_raises_location. rewrite Hbad. by eexists. }
  split; [done|]. split; [done|].
  intros data jobs w Hresults Hin.
  by apply (transform_data_raises_member data jobs (PDict m)).
Qed.

Lemma extract_row_many_commas_witness :
  raises (extract_row (PDict fields_new_york)).
Proof.
  destruct (extract_row_many_commas fields_new_york
              (list_to_map [("name", PStr "New York, NY, USA")]) []
              "New York, NY, USA") as (_ & Hraises & _).
  - vm_compute; reflexivity.
  - vm_compute; reflexivity.
  - vm_compute. lia.
  - exact Hraises.
Defined.

(** X5. A [company] that is truthy but not a mapping (a non-empty string
    or list, a non-zero number, [true]) has no [get]: line 72 raises an
    [AttributeError] and the record is never extracted. *)
Theorem extract_row_company_not_mapping (m : gmap string pyval) (c : pyval) :
  m !! "company" = Some c →
  Py.truthy c = true →
  (∀ cm, c ≠ PDict cm) →
  company_expr (PDict m) = Raise AttributeError ∧
  raises (extract_row (PDict m)).
Proof.
  intros Hc Htruthy Hshape.
  assert (company_expr (PDict m) = Raise AttributeError) as Hbad.
  { unfold company_expr. simpl. rewrite Hc. simpl. rewrite Htruthy. simpl.
    destruct c as [| | | | | |cm]; try done. by destruct (Hshape cm). }
  split; [done|]. apply extract_row_raises_company. rewrite Hbad. by eexists.
Qed.

Lemma extract_row_company_not_mapping_witness :
  raises (extract_row
            (PDict (list_to_map [("publication_date", PStr "2023-05-01");
                                 ("company", PStr "Acme")]))).
Proof.
  apply (extract_row_company_not_mapping _ (PStr "Acme")).
  - vm_compute; reflexivity.
  - vm_compute; reflexivity.
  - intros cm. discriminate.
Defined.

(** X6. A truthy [locations] that is not a list starting with a mapping
    (a string, a mapping, a number, a list that starts with a string)
    makes line 73 raise, and the record is never extracted. *)
Theorem extract_row_locations_malformed (m : gmap string pyval) (l : pyval) :
  m !! "locations" = Some l →
  Py.truthy l = true →
  (∀ loc rest, l ≠ PList (PDict loc :: rest)) →
  raises (location_expr (PDict m)) ∧ raises (extract_row (PDict m)).
Proof.
  intros Hl Htruthy Hshape.
  assert (raises (location_expr (PDict m))) as Hbad.
  { unfold location_expr. simpl. rewrite Hl. simpl. rewrite Htruthy. simpl.
    destruct l as [| | | |s|xs|d]; simpl; try by eexists.
    - destruct s as [|c s]; simpl; by eexists.
    - destruct xs as [|x xs]; simpl; [done|].
      destruct x as [| | | | | |loc]; simpl; try by eexists.
      by destruct (Hshape loc xs). }
  split; [done|]. apply extract_row_raises_location. by apply bind_raise.
Qed.

Lemma extract_row_locations_malformed_witness :
  raises (extract_row
            (PDict (list_to_map [("publication_date", PStr "2023-05-01");
                                 ("locations", PStr "Berlin, Germany")]))).
Proof.
  apply (extract_row_locations_malformed _ (PStr "Berlin, Germany")).
  - vm_compute; reflexivity.
  - vm_compute; reflexivity.
  - intros loc rest. discriminate.
Defined.

(** ** Further properties of the build *)

Lemma for_jobs_app_raise (good : list pyval) (bad : pyval) (rest : list pyval)
    (e : exn) (df : pd.DataFrame) :
  Forall (λ job, is_ok (extract_row job) = true) good →
  extract_row bad = Raise e →
  for_jobs (good ++ bad :: rest) df = Raise e.
Proof.
  intros Hgood Hbad. revert df.
  induction Hgood as [|job good Hjob _ IH]; intros df; simpl.
  - by rewrite Hbad.
  - destruct (extract_row job) as [row|e']; [apply IH | done].
Qed.

(** X7. The exception of a failed build is the one of the first record
    that fails: the records after it are not looked at, and the
    diagnostic names that exception. *)
Theorem transform_data_first_error (data : pyval) (good : list pyval) (bad : pyval)
    (rest : list pyval) (e : exn) (w : world) :
  Py.getitem data "results" = Ok (PList (good ++ bad :: rest)) →
  Forall (λ job, is_ok (extract_row job) = true) good →
  extract_row bad = Raise e →
  transform_data data w
  = (Raise e, print_stderr "[ERROR: ] occured building the DataFrame: " e w).
Proof.
  intros Hresults Hgood Hbad. unfold transform_data.
  rewrite (transform_body_list _ _ Hresults).
  by rewrite (for_jobs_app_raise good bad rest e).
Qed.

Lemma transform_data_first_error_witness :
  (transform_data
     (response [PDict fields_austin; PDict fields_no_date; PDict fields_new_york])
     quiet_world).1 = Raise TypeError.
Proof.
  rewrite (transform_data_first_error _ [PDict fields_austin] (PDict fields_no_date)
             [PDict fields_new_york] TypeError).
  - reflexivity.
  - vm_compute; reflexivity.
  - repeat constructor; vm_compute; reflexivity.
  - vm_compute; reflexivity.
Defined.

(** X8. A response without the key [results] ends the build with a
    [KeyError], and a response that is not a mapping with a [TypeError];
    in both cases one diagnostic is printed. *)
Theorem transform_data_no_results (data : pyval) (w : world) :
  (∀ m, data = PDict m → m !! "results" = None) →
  ∃ e, (e = KeyError ∨ e = TypeError) ∧
       (e = KeyError ↔ ∃ m, data = PDict m) ∧
       transform_data data w
       = (Raise e, print_stderr "[ERROR: ] occured building the DataFrame: " e w).
Proof.
  intros Hno. unfold transform_data, transform_body.
  destruct data as [| | | | | |m]; simpl;
    try (exists TypeError; split; [by right|]; split; [|done];
         split; [done | by intros [m [=]]]).
  rewrite (Hno m eq_refl). exists KeyError.
  split; [by left|]. split; [|done]. split; [by exists m | done].
Qed.

Lemma transform_data_no_results_witness :
  ∃ e, (e = KeyError ∨ e = TypeError) ∧
       (e = KeyError ↔ ∃ m, obj [("count", PInt 0)] = PDict m) ∧
       transform_data (obj [("count", PInt 0)]) quiet_world
       = (Raise e, print_stderr "[ERROR: ] occured building the DataFrame: " e quiet_world).
Proof.
  apply (transform_data_no_results (obj [("count", PInt 0)])).
  intros m [= <-]. vm_compute; reflexivity.
Defined.

(** X9. When [results] is not a list: an empty mapping or an empty string
    gives the empty table, like the empty list; a non-empty mapping or
    string ends the build with an [AttributeError], because the loop then
    visits keys or characters; null, a number or a boolean cannot be
    iterated and give a [TypeError]. *)
Theorem transform_body_results_not_list (data results : pyval) :
  Py.getitem data "results" = Ok results →
  (∀ jobs, results ≠ PList jobs) →
  transform_body data
  = match results with
    | PDict m => if decide (m = ∅) then Ok (pd.empty COLUMNS) else Raise AttributeError
    | PStr s => if decide (s = "") then Ok (pd.empty COLUMNS) else Raise AttributeError
    | _ => Raise TypeError
    end.
Proof.
  intros Hresults Hshape.
  destruct results as [| | | |s|xs|m]; try (unfold transform_body; by rewrite Hresults).
  - unfold transform_body. rewrite Hresults. simpl.
    destruct s as [|c s]; by case_decide.
  - by destruct (Hshape xs).
  - case_decide as Hm.
    + subst m. unfold transform_body. rewrite Hresults. simpl.
      by rewrite map_to_list_empty.
    + by apply (iter_dict_fails data m).
Qed.

Lemma transform_body_results_not_list_witness :
  transform_body (obj [("results", obj [("error", PStr "rate limit")])])
  = Raise AttributeError.
Proof.
  rewrite (transform_body_results_not_list _ (obj [("error", PStr "rate limit")])).
  - vm_compute; reflexivity.
  - vm_compute; reflexivity.
  - intros jobs. discriminate.
Defined.

Lemma for_jobs_ok_inv (jobs : list pyval) (df df' : pd.DataFrame) :
  for_jobs jobs df = Ok df' →
  Forall (λ job, is_ok (extract_row job) = true) jobs.
Proof.
  revert df. induction jobs as [|job jobs IH]; intros df Hfor; [constructor|].
  simpl in Hfor. destruct (extract_row job) as [row|e] eqn:Hrow; [|done].
  constructor; [by rewrite Hrow | by eapply IH].
Qed.

(** X10. Whatever the input was, a table that [transform_data] returns
    has the six column labels, six cells in every row, and as many rows
    as the loop visited elements; and the call printed nothing and ran
    nothing. *)
Theorem transform_data_table_shape (data : pyval) (w w' : world) (df : pd.DataFrame) :
  transform_data data w = (Ok df, w') →
  w' = w ∧
  pd.columns df = COLUMNS ∧
  Forall (λ cells, length cells = length COLUMNS) (pd.values df) ∧
  ∃ results jobs, Py.getitem data "results" = Ok results ∧
                  Py.iter results = Ok jobs ∧
                  length (pd.values df) = length jobs.
Proof.
  unfold transform_data. intros Hrun.
  destruct (transform_body data) as [df0|e] eqn:Hbody; [|done].
  injection Hrun as -> ->. split; [done|].
  unfold transform_body in Hbody.
  destruct (Py.getitem data "results") as [results|] eqn:Hresults; [|done].
  simpl in Hbody.
  destruct (Py.iter results) as [jobs|] eqn:Hiter; [|done].
  simpl in Hbody.
  pose proof (for_jobs_ok_inv _ _ _ Hbody) as Hjobs.
  destruct (for_jobs_ok jobs [] (Forall_nil_2 _) Hjobs) as (rows & Hrows & Hfor).
  unfold pd.empty in Hbody. rewrite Hfor in Hbody. injection Hbody as <-.
  simpl. split; [done|]. split.
  - apply Forall_fmap, Forall_forall. intros row Hin.
    apply list_elem_of_lookup in Hin as [i Hi].
    destruct (Forall2_lookup_r _ _ _ _ _ Hrows Hi) as (job & _ & Hrow).
    simpl. by apply (row_cells_length job).
  - exists results, jobs. split; [done|]. split; [done|].
    rewrite length_fmap. symmetry. by eapply Forall2_length.
Qed.

Lemma transform_data_table_shape_witness :
  ∃ df, transform_data (response [PDict fields_austin; PDict fields_remote]) quiet_world
        = (Ok df, quiet_world) ∧
        Forall (λ cells, length cells = length COLUMNS) (pd.values df).
Proof.
  eexists. split; [vm_compute; reflexivity|].
  eapply (transform_data_table_shape
            (response [PDict fields_austin; PDict fields_remote])
            quiet_world quiet_world).
  vm_compute; reflexivity.
Defined.


(** * Properties of the script around the build *)

Lemma raise_for_status_error (r : Response) :
  http_error_status (status_code r) →
  raise_for_status r = Throws (RequestException "HTTPError" (Some (status_code r))).
Proof.
  unfold http_error_status, raise_for_status. intros [Hlo Hhi].
  apply Z.leb_le in Hlo. apply Z.ltb_lt in Hhi. by rewrite Hlo, Hhi.
Qed.

Lemma raise_for_status_fine (r : Response) :
  ¬ http_error_status (status_code r) → raise_for_status r = Returns ().
Proof.
  unfold http_error_status, raise_for_status. intros Hno.
  destruct (400 <=? status_code r)%Z eqn:Hlo; [|done].
  destruct (status_code r <? 600)%Z eqn:Hhi; [|done].
  apply Z.leb_le in Hlo. apply Z.ltb_lt in Hhi. lia.
Qed.

Lemma prog_bind_returns {A B} (p : prog A) (f : A → prog B) (t t' : list event) (a : A) :
  p t = (Returns a, t') → (p ≫= f) t = f a t'.
Proof. intros H. unfold mbind, prog_bind. by rewrite H. Qed.

Lemma prog_bind_throws {A B} (p : prog A) (f : A → prog B) (t t' : list event)
    (e : pyexn) :
  p t = (Throws e, t') → (p ≫= f) t = (Throws e, t').
Proof. intros H. unfold mbind, prog_bind. by rewrite H. Qed.

Lemma read_api_returns (env : environment) (url data : pyval) (r : Response)
    (t : list event) :
  requests_get env url = Returns r →
  ¬ http_error_status (status_code r) →
  json r = Returns data →
  read_api env url t = (Returns data, t ++ [HttpGet url]).
Proof.
  intros Hget Hstatus Hjson. unfold read_api, read_api_body.
  by rewrite Hget, (raise_for_status_fine _ Hstatus), Hjson.
Qed.

Lemma in_world_transform_ok (env : environment) (data : pyval) (df : pd.DataFrame)
    (t : list event) :
  transform_body data = Ok df →
  in_world env (transform_data data) t = (Returns df, t).
Proof.
  intros Hbody. unfold in_world, transform_data. rewrite Hbody. simpl.
  by rewrite app_nil_r.
Qed.

Lemma in_world_transform_raise (env : environment) (data : pyval) (e : exn)
    (t : list event) :
  transform_body data = Raise e →
  in_world env (transform_data data) t
  = (Throws (Builtin e),
     t ++ [Stderr "[ERROR: ] occured building the DataFrame: " (ShownExn (Builtin e))]).
Proof. intros Hbody. unfold in_world, transform_data. by rewrite Hbody. Qed.

Lemma in_world_upload_exited (env : environment) (file_name bucket folder : string)
    (rc : Z) (t : list event) :
  run_command env (upload_argv file_name) = Exited rc →
  in_world env (upload_to_s3 file_name bucket folder) t
  = (Returns PNone, t ++ [Spawn (upload_argv file_name)]).
Proof.
  intros Hrun. unfold in_world, upload_to_s3, subprocess_run. simpl.
  by rewrite Hrun.
Qed.

Lemma in_world_upload_not_started (env : environment) (file_name bucket folder : string)
    (t : list event) :
  run_command env (upload_argv file_name) = NotStarted →
  in_world env (upload_to_s3 file_name bucket folder) t
  = (Throws (Builtin OSError),
     t ++ [Stderr "[ERROR: ] uploading file to S3: " (ShownExn (Builtin OSError))]).
Proof.
  intros Hrun. unfold in_world, upload_to_s3, subprocess_run. simpl.
  by rewrite Hrun.
Qed.

Lemma save_to_csv_written (env : environment) (df : pd.DataFrame) (file_name : string)
    (t : list event) :
  to_csv env df file_name = None →
  save_to_csv env df file_name t = (Returns (), t ++ [FileWrite file_name df]).
Proof. intros Hcsv. unfold save_to_csv, try_report. by rewrite Hcsv. Qed.

Lemma save_to_csv_failed (env : environment) (df : pd.DataFrame) (file_name : string)
    (err : pyexn) (t : list event) :
  to_csv env df file_name = Some err →
  save_to_csv env df file_name t
  = (Throws err, t ++ [Stderr "[ERROR: ] saving DataFrame to CSV : " (ShownExn err)]).
Proof. intros Hcsv. unfold save_to_csv, try_report. by rewrite Hcsv. Qed.

(** The part of [main_body] from the request on, for a configuration that
    gave the URL. *)
Lemma main_body_unfold (env : environment) (cfg api : gmap string pyval) (url : pyval) :
  toml_load env "config.toml" = Returns (PDict cfg) →
  cfg !! "api" = Some (PDict api) →
  api !! "url" = Some url →
  main_body env []
  = (data ← read_api env url;
     _ ← print "API Done Reading!";
     _ ← print "Building DataFrame..";
     df ← in_world env (transform_data data);
     _ ← print "DataFrame saved to local file called jobs.csv";
     _ ← save_to_csv env df "jobs.csv";
     _ ← print "Uploading to AWS S3....";
     bucket ← pure (aws ← Py.getitem (PDict cfg) "aws"; Py.getitem aws "bucket");
     folder ← pure (aws ← Py.getitem (PDict cfg) "aws"; Py.getitem aws "folder");
     _ ← in_world env (upload_to_s3 "jobs.csv" (as_str bucket) (as_str folder));
     print "File Uploading Done!") [Stdout "Reading the API...."].
Proof.
  intros Hload Hapi Hurl. unfold main_body.
  unfold mbind at 1. unfold prog_bind at 1. unfold call. rewrite Hload.
  unfold mbind at 1. unfold prog_bind at 1. unfold pure. simpl.
  rewrite Hapi. simpl. rewrite Hurl. reflexivity.
Qed.

(** X12. On a response with a status from 400 to 599, [read_api] raises
    the [HTTPError] that carries that status and prints one diagnostic
    with the status; the body of the response is not decoded. *)
Theorem read_api_http_error (env : environment) (url : pyval) (r : Response)
    (t : list event) :
  requests_get env url = Returns r →
  http_error_status (status_code r) →
  read_api env url t
  = (Throws (RequestException "HTTPError" (Some (status_code r))),
     t ++ [HttpGet url;
           Stderr "[ERROR: ] occured reading the API with status code: "
                  (ShownStatus (status_code r))]).
Proof.
  intros Hget Hstatus. unfold read_api, read_api_body.
  rewrite Hget, (raise_for_status_error _ Hstatus).
  by rewrite <- app_assoc.
Qed.

Lemma read_api_http_error_witness :
  read_api (env_with config_full
              (Returns {| status_code := 404; json := Returns PNone |})
              None (Exited 0))
           (PStr "https://www.themuse.com/api/public/jobs?page=50") []
  = (Throws (RequestException "HTTPError" (Some 404%Z)),
     [HttpGet (PStr "https://www.themuse.com/api/public/jobs?page=50");
      Stderr "[ERROR: ] occured reading the API with status code: "
             (ShownStatus 404)]).
Proof.
  apply (read_api_http_error _ _ {| status_code := 404; json := Returns PNone |} []).
  - reflexivity.
  - unfold http_error_status. simpl. lia.
Defined.

(** X13. When the request fails with an exception of the
    [RequestException] family that carries no response (a refused
    connection, a timeout, a body that is not JSON), the handler of
    [read_api] fails on [err.response.status_code]: the caller gets an
    [AttributeError] instead of the request's exception, and no
    diagnostic is printed. *)
Theorem read_api_no_response (env : environment) (url : pyval) (cls : string)
    (t : list event) :
  requests_get env url = Throws (RequestException cls None) ∨
  (∃ r, requests_get env url = Returns r ∧
        ¬ http_error_status (status_code r) ∧
        json r = Throws (RequestException cls None)) →
  read_api env url t = (Throws (Builtin AttributeError), t ++ [HttpGet url]).
Proof.
  intros [Hget | (r & Hget & Hstatus & Hjson)]; unfold read_api, read_api_body.
  - by rewrite Hget.
  - by rewrite Hget, (raise_for_status_fine _ Hstatus), Hjson.
Qed.

Lemma read_api_no_response_witness :
  read_api (env_with config_full (Throws (RequestException "ConnectionError" None))
              None (Exited 0))
           (PStr "https://www.themuse.com/api/public/jobs?page=50") []
  = (Throws (Builtin AttributeError),
     [HttpGet (PStr "https://www.themuse.com/api/public/jobs?page=50")]).
Proof.
  apply (read_api_no_response _ _ "ConnectionError" []). left. reflexivity.
Defined.

(** X14. [read_api] returns a value exactly when the request is answered
    with a status outside 400-599 and the body decodes to that value; it
    then prints nothing. *)
Theorem read_api_returns_iff (env : environment) (url data : pyval) (t : list event) :
  ((read_api env url t).1 = Returns data ↔
   ∃ r, requests_get env url = Returns r ∧
        ¬ http_error_status (status_code r) ∧
        json r = Returns data) ∧
  ((read_api env url t).1 = Returns data →
   (read_api env url t).2 = t ++ [HttpGet url]).
Proof.
  assert ((read_api env url t).1 = Returns data →
          read_api_body env url = Returns data) as Hbody.
  { unfold read_api.
    destruct (read_api_body env url) as [v|[e|cls [code|]|cls]]; simpl; congruence. }
  split; [split|].
  - intros Hret. apply Hbody in Hret. unfold read_api_body in Hret.
    destruct (requests_get env url) as [r|e] eqn:Hget; [|done].
    exists r. split; [done|].
    destruct (decide (400 ≤ status_code r < 600)%Z) as [Hbad|Hfine].
    + by rewrite (raise_for_status_error _ Hbad) in Hret.
    + by rewrite (raise_for_status_fine _ Hfine) in Hret.
  - intros (r & Hget & Hstatus & Hjson).
    by rewrite (read_api_returns env url data r t).
  - intros Hret. apply Hbody in Hret. unfold read_api. by rewrite Hret.
Qed.

(** X15. A complete run: with a configuration that holds [api.url],
    [aws.bucket] and [aws.folder], an answered request, a table that
    builds and a file that is written, [main] returns normally whatever
    status the upload command exits with, zero or not; the script exits
    with status 0 and its actions are, in this order: the request, the
    write of [jobs.csv], the one upload command, between the six progress
    lines. *)
Theorem main_complete_run (env : environment) (cfg api aws : gmap string pyval)
    (url data : pyval) (r : Response) (df : pd.DataFrame) (rc : Z) :
  toml_load env "config.toml" = Returns (PDict cfg) →
  cfg !! "api" = Some (PDict api) →
  api !! "url" = Some url →
  cfg !! "aws" = Some (PDict aws) →
  is_Some (aws !! "bucket") →
  is_Some (aws !! "folder") →
  requests_get env url = Returns r →
  ¬ http_error_status (status_code r) →
  json r = Returns data →
  transform_body data = Ok df →
  to_csv env df "jobs.csv" = None →
  run_command env (upload_argv "jobs.csv") = Exited rc →
  script env
  = (0%Z,
     [Stdout "Reading the API....";
      HttpGet url;
      Stdout "API Done Reading!";
      Stdout "Building DataFrame..";
      Stdout "DataFrame saved to local file called jobs.csv";
      FileWrite "jobs.csv" df;
      Stdout "Uploading to AWS S3....";
      Spawn ["aws"; "s3"; "cp"; "jobs.csv";
             "s3://py-project-jobs-s3bucket/input/jobs.csv"];
      Stdout "File Uploading Done!"]).
Proof.
  intros Hload Hapi Hurl Haws [bucket Hbucket] [folder Hfolder]
         Hget Hstatus Hjson Hbody Hcsv Hrun.
  unfold script, main, try_report.
  rewrite (main_body_unfold env cfg api url Hload Hapi Hurl).
  erewrite prog_bind_returns by (by apply (read_api_returns env url data r)).
  erewrite prog_bind_returns by reflexivity.
  erewrite prog_bind_returns by reflexivity.
  erewrite prog_bind_returns by (by apply in_world_transform_ok).
  erewrite prog_bind_returns by reflexivity.
  erewrite prog_bind_returns by (by apply save_to_csv_written).
  erewrite prog_bind_returns by reflexivity.
  erewrite prog_bind_returns
    by (unfold pure; simpl; rewrite Haws; simpl; rewrite Hbucket; reflexivity).
  erewrite prog_bind_returns
    by (unfold pure; simpl; rewrite Haws; simpl; rewrite Hfolder; reflexivity).
  erewrite prog_bind_returns by (by apply (in_world_upload_exited _ _ _ _ rc)).
  reflexivity.
Qed.

Lemma main_complete_run_witness :
  (script (env_with config_full (reply_ok [PDict fields_austin]) None (Exited 1))).1
  = 0%Z.
Proof.
  erewrite (main_complete_run _ _ _ _
              (PStr "https://www.themuse.com/api/public/jobs?page=50")
              (response [PDict fields_austin])
              {| status_code := 200; json := Returns (response [PDict fields_austin]) |}
              _ 1).
  - reflexivity.
  - reflexivity.
  - vm_compute; reflexivity.
  - vm_compute; reflexivity.
  - vm_compute; reflexivity.
  - eexists. vm_compute; reflexivity.
  - eexists. vm_compute; reflexivity.
  - reflexivity.
  - unfold http_error_status. simpl. lia.
  - reflexivity.
  - vm_compute; reflexivity.
  - reflexivity.
  - reflexivity.
Defined.

(** X16. The [aws] settings are read only after the file has been
    written: with a configuration that lacks the [aws] table, or one of
    its keys [bucket] and [folder], a run that gets that far fetches,
    builds and writes [jobs.csv], and only then fails with a [KeyError];
    no upload command is run and the script exits with status 1. *)
Theorem main_aws_settings_read_late (env : environment) (cfg api : gmap string pyval)
    (url data : pyval) (r : Response) (df : pd.DataFrame) :
  toml_load env "config.toml" = Returns (PDict cfg) →
  cfg !! "api" = Some (PDict api) →
  api !! "url" = Some url →
  (cfg !! "aws" = None ∨
   ∃ aws, cfg !! "aws" = Some (PDict aws) ∧
          (aws !! "bucket" = None ∨ aws !! "folder" = None)) →
  requests_get env url = Returns r →
  ¬ http_error_status (status_code r) →
  json r = Returns data →
  transform_body data = Ok df →
  to_csv env df "jobs.csv" = None →
  script env
  = (1%Z,
     [Stdout "Reading the API....";
      HttpGet url;
      Stdout "API Done Reading!";
      Stdout "Building DataFrame..";
      Stdout "DataFrame saved to local file called jobs.csv";
      FileWrite "jobs.csv" df;
      Stdout "Uploading to AWS S3....";
      Stderr "[ERROR: ] in main: " (ShownExn (Builtin KeyError))]).
Proof.
  intros Hload Hapi Hurl Haws Hget Hstatus Hjson Hbody Hcsv.
  unfold script, main, try_report.
  rewrite (main_body_unfold env cfg api url Hload Hapi Hurl).
  erewrite prog_bind_returns by (by apply (read_api_returns env url data r)).
  erewrite prog_bind_returns by reflexivity.
  erewrite prog_bind_returns by reflexivity.
  erewrite prog_bind_returns by (by apply in_world_transform_ok).
  erewrite prog_bind_returns by reflexivity.
  erewrite prog_bind_returns by (by apply save_to_csv_written).
  erewrite prog_bind_returns by reflexivity.
  destruct Haws as [Haws | (aws & Haws & [Hbucket | Hfolder])].
  - erewrite prog_bind_throws
      by (unfold pure; simpl; rewrite Haws; reflexivity).
    reflexivity.
  - erewrite prog_bind_throws
      by (unfold pure; simpl; rewrite Haws; simpl; rewrite Hbucket; reflexivity).
    reflexivity.
  - destruct (aws !! "bucket") as [bucket|] eqn:Hbucket.
    + erewrite prog_bind_returns
        by (unfold pure; simpl; rewrite Haws; simpl; rewrite Hbucket; reflexivity).
      erewrite prog_bind_throws
        by (unfold pure; simpl; rewrite Haws; simpl; rewrite Hfolder; reflexivity).
      reflexivity.
    + erewrite prog_bind_throws
        by (unfold pure; simpl; rewrite Haws; simpl; rewrite Hbucket; reflexivity).
      reflexivity.
Qed.

Lemma main_aws_settings_read_late_witness :
  (script (env_with config_no_aws (reply_ok [PDict fields_austin]) None (Exited 0))).1
  = 1%Z.
Proof.
  erewrite (main_aws_settings_read_late _ _ _
              (PStr "https://www.themuse.com/api/public/jobs?page=50")
              (response [PDict fields_austin])
              {| status_code := 200; json := Returns (response [PDict fields_austin]) |}).
  - reflexivity.
  - reflexivity.
  - vm_compute; reflexivity.
  - vm_compute; reflexivity.
  - left. vm_compute; reflexivity.
  - reflexivity.
  - unfold http_error_status. simpl. lia.
  - reflexivity.
  - vm_compute; reflexivity.
  - reflexivity.
Defined.

(** X17. When the build raises, the run prints two diagnostics, the one
    of [transform_data] and then the one of [main], both with the
    exception of the build; nothing is written, nothing is uploaded, and
    the script exits with status 1. *)
Theorem main_build_failure (env : environment) (cfg api : gmap string pyval)
    (url data : pyval) (r : Response) (e : exn) :
  toml_load env "config.toml" = Returns (PDict cfg) →
  cfg !! "api" = Some (PDict api) →
  api !! "url" = Some url →
  requests_get env url = Returns r →
  ¬ http_error_status (status_code r) →
  json r = Returns data →
  transform_body data = Raise e →
  script env
  = (1%Z,
     [Stdout "Reading the API....";
      HttpGet url;
      Stdout "API Done Reading!";
      Stdout "Building DataFrame..";
      Stderr "[ERROR: ] occured building the DataFrame: " (ShownExn (Builtin e));
      Stderr "[ERROR: ] in main: " (ShownExn (Builtin e))]).
Proof.
  intros Hload Hapi Hurl Hget Hstatus Hjson Hbody.
  unfold script, main, try_report.
  rewrite (main_body_unfold env cfg api url Hload Hapi Hurl).
  erewrite prog_bind_returns by (by apply (read_api_returns env url data r)).
  erewrite prog_bind_returns by reflexivity.
  erewrite prog_bind_returns by reflexivity.
  erewrite prog_bind_throws by (by apply in_world_transform_raise).
  reflexivity.
Qed.

Lemma main_build_failure_witness :
  (script (env_with config_full (reply_ok [PDict fields_new_york]) None (Exited 0))).1
  = 1%Z.
Proof.
  erewrite (main_build_failure _ _ _
              (PStr "https://www.themuse.com/api/public/jobs?page=50")
              (response [PDict fields_new_york])
              {| status_code := 200; json := Returns (response [PDict fields_new_york]) |}
              ValueError).
  - reflexivity.
  - reflexivity.
  - vm_compute; reflexivity.
  - vm_compute; reflexivity.
  - reflexivity.
  - unfold http_error_status. simpl. lia.
  - reflexivity.
  - vm_compute; reflexivity.
Defined.

(** X18. The line [DataFrame saved to local file called jobs.csv] is
    printed before the file is written: when [to_csv] fails, the line is
    on the standard output all the same, no file was written, no upload
    is run, and the failure is reported twice, by [save_to_csv] and by
    [main]. *)
Theorem main_save_failure (env : environment) (cfg api : gmap string pyval)
    (url data : pyval) (r : Response) (df : pd.DataFrame) (err : pyexn) :
  toml_load env "config.toml" = Returns (PDict cfg) →
  cfg !! "api" = Some (PDict api) →
  api !! "url" = Some url →
  requests_get env url = Returns r →
  ¬ http_error_status (status_code r) →
  json r = Returns data →
  transform_body data = Ok df →
  to_csv env df "jobs.csv" = Some err →
  script env
  = (1%Z,
     [Stdout "Reading the API....";
      HttpGet url;
      Stdout "API Done Reading!";
      Stdout "Building DataFrame..";
      Stdout "DataFrame saved to local file called jobs.csv";
      Stderr "[ERROR: ] saving DataFrame to CSV : " (ShownExn err);
      Stderr "[ERROR: ] in main: " (ShownExn err)]).
Proof.
  intros Hload Hapi Hurl Hget Hstatus Hjson Hbody Hcsv.
  unfold script, main, try_report.
  rewrite (main_body_unfold env cfg api url Hload Hapi Hurl).
  erewrite prog_bind_returns by (by apply (read_api_returns env url data r)).
  erewrite prog_bind_returns by reflexivity.
  erewrite prog_bind_returns by reflexivity.
  erewrite prog_bind_returns by (by apply in_world_transform_ok).
  erewrite prog_bind_returns by reflexivity.
  erewrite prog_bind_throws by (by apply save_to_csv_failed).
  reflexivity.
Qed.

Lemma main_save_failure_witness :
  (script (env_with config_full (reply_ok [PDict fields_austin])
             (Some (Builtin OSError)) (Exited 0))).1
  = 1%Z.
Proof.
  erewrite (main_save_failure _ _ _
              (PStr "https://www.themuse.com/api/public/jobs?page=50")
              (response [PDict fields_austin])
              {| status_code := 200; json := Returns (response [PDict fields_austin]) |}
              _ (Builtin OSError)).
  - reflexivity.
  - reflexivity.
  - vm_compute; reflexivity.
  - vm_compute; reflexivity.
  - reflexivity.
  - unfold http_error_status. simpl. lia.
  - reflexivity.
  - vm_compute; reflexivity.
  - reflexivity.
Defined.

(** X19. Without a usable configuration nothing is attempted: when
    [toml.load] raises, or the configuration has no [api] table or no
    [url] in it, the only effect of the run is the diagnostic of [main];
    no request is sent and no progress line is printed. *)
Theorem main_config_failure (env : environment) (e : pyexn) :
  toml_load env "config.toml" = Throws e ∨
  (∃ cfg, toml_load env "config.toml" = Returns (PDict cfg) ∧
          e = Builtin KeyError ∧
          (cfg !! "api" = None ∨
           ∃ api, cfg !! "api" = Some (PDict api) ∧ api !! "url" = None)) →
  script env = (1%Z, [Stderr "[ERROR: ] in main: " (ShownExn e)]).
Proof.
  intros [Hload | (cfg & Hload & -> & Hapi)];
    unfold script, main, try_report, main_body.
  - erewrite prog_bind_throws by (unfold call; rewrite Hload; reflexivity).
    reflexivity.
  - erewrite prog_bind_returns by (unfold call; rewrite Hload; reflexivity).
    assert ((api ← Py.getitem (PDict cfg) "api"; Py.getitem api "url")
            = Raise KeyError) as Hkey.
    { simpl. destruct Hapi as [Hapi | (api & Hapi & Hurl)]; rewrite Hapi; simpl;
        [done|]. by rewrite Hurl. }
    erewrite prog_bind_throws by (unfold pure; rewrite Hkey; reflexivity).
    reflexivity.
Qed.

Lemma main_config_failure_witness :
  script (env_with (obj [("aws", obj [])]) (reply_ok []) None (Exited 0))
  = (1%Z, [Stderr "[ERROR: ] in main: " (ShownExn (Builtin KeyError))]).
Proof.
  apply main_config_failure. right.
  exists (list_to_map [("aws", obj [])]).
  split; [reflexivity|]. split; [reflexivity|]. left. vm_compute; reflexivity.
Defined.

(** The case analysis of a run, stage by stage. *)
Ltac script_cases env :=
  unfold script, main, try_report, main_body;
  unfold mbind, prog_bind, call, pure, print, emit, save_to_csv, try_report,
    read_api, in_world, transform_data, upload_to_s3, subprocess_run;
  simpl;
  destruct (toml_load env "config.toml") as [cfg|e]; simpl;
  [ destruct (result_bind _ _ _ (Py.getitem cfg "api")) as [url|e]; simpl;
    [ destruct (read_api_body env url) as [data|[e|cls [code|]|cls]]; simpl;
      [ destruct (transform_body data) as [df|e]; simpl;
        [ destruct (to_csv env df "jobs.csv") as [err|]; simpl;
          [ | destruct (result_bind _ _ _ (Py.getitem cfg "aws")) as [bucket|e]; simpl;
              [ destruct (result_bind _ _ _ (Py.getitem cfg "aws")) as [folder|e]; simpl;
                [ destruct (run_command env (upload_argv "jobs.csv")) as [rc|]; simpl
                | ]
              | ] ]
        | ]
      | | | | ]
    | ]
  | ].

(** X20. In every run, whatever the surroundings answer, the actions on
    the outside world form a beginning of the sequence: one request, one
    write of [jobs.csv], one command [aws s3 cp jobs.csv] to the fixed
    address.  So nothing is written before the request, nothing is
    uploaded unless the file was written, and no action happens twice.
    The progress lines likewise are a beginning of the six fixed lines. *)
Theorem script_actions_in_order (env : environment) :
  (∃ url df,
     filter (λ ev, is_action ev = true) (script env).2
     `prefix_of` [HttpGet url; FileWrite "jobs.csv" df;
                  Spawn ["aws"; "s3"; "cp"; "jobs.csv";
                         "s3://py-project-jobs-s3bucket/input/jobs.csv"]]) ∧
  stdout_lines (script env).2
  `prefix_of` ["Reading the API...."; "API Done Reading!"; "Building DataFrame..";
               "DataFrame saved to local file called jobs.csv";
               "Uploading to AWS S3...."; "File Uploading Done!"].
Proof.
  script_cases env;
    (split;
     [ first [ exists url, df; eexists; reflexivity
             | exists url, (pd.empty []); eexists; reflexivity
             | exists PNone, (pd.empty []); eexists; reflexivity ]
     | eexists; reflexivity ]).
Qed.


(** X22. The destination written in the configuration does not reach
    the run: replacing the values of [aws.bucket] and [aws.folder] by any
    others leaves the exit status and every action and line of the script
    unchanged. *)
Theorem script_ignores_destination (env : environment) (cfg aws : gmap string pyval)
    (bucket folder : pyval) :
  toml_load env "config.toml" = Returns (PDict cfg) →
  cfg !! "aws" = Some (PDict aws) →
  is_Some (aws !! "bucket") →
  is_Some (aws !! "folder") →
  script (with_config env
            (PDict (<["aws" := PDict (<["bucket" := bucket]> (<["folder" := folder]> aws))]>
                      cfg)))
  = script env.
Proof.
  intros Hload Haws [bucket0 Hbucket] [folder0 Hfolder].
  unfold script, main, try_report, main_body.
  unfold mbind, prog_bind, call, pure, print, emit, save_to_csv, try_report,
    read_api, in_world, transform_data, upload_to_s3, subprocess_run.
  simpl. rewrite Hload. simpl.
  rewrite lookup_insert_ne by done.
  rewrite lookup_insert_eq, Haws. simpl.
  rewrite lookup_insert_eq, Hbucket.
  rewrite lookup_insert_ne by done.
  rewrite lookup_insert_eq, Hfolder.
  reflexivity.
Qed.

Lemma script_ignores_destination_witness :
  script (with_config
            (env_with config_full (reply_ok [PDict fields_austin]) None (Exited 0))
            (PDict (<["aws" := PDict (<["bucket" := PStr "other-bucket"]>
                                        (<["folder" := PStr "elsewhere/"]>
                                           (list_to_map [("bucket", PStr "my-bucket");
                                                         ("folder", PStr "input/")])))]>
                      (list_to_map
                         [("api", obj [("url", PStr "https://www.themuse.com/api/public/jobs?page=50")]);
                          ("aws", obj [("bucket", PStr "my-bucket");
                                       ("folder", PStr "input/")])]))))
  = script (env_with config_full (reply_ok [PDict fields_austin]) None (Exited 0)).
Proof.
  apply script_ignores_destination.
  - reflexivity.
  - vm_compute; reflexivity.
  - eexists. vm_compute; reflexivity.
  - eexists. vm_compute; reflexivity.
Defined.
